(** * Enhanced Validation System (services/enhanced_validation_system.py)

    A shallow embedding of the class [EnhancedValidationSystem] and the
    properties of its progressive-tolerance validation.

    Modelling conventions.
    - Python text is a Rocq [string] (a sequence of 8-bit characters).  The
      embedding is exact for ASCII text; [upper], [lower] and [String.length]
      act on characters, and leave characters above 127 unchanged.
    - Python [float] values are exact rationals ([Q]); every constant of the
      source (10.0, 20.0, 25.0, ...) and every value computed in a concrete
      example below is a small integer, hence exact in binary64 as well.
    - Python [int] is [Z]; [bool] is a subtype of [int] as in Python.
    - A [dict] is an association list in insertion order.
    - Exceptions are values of [exn]; code that can raise returns a [result].
    - The text of interpreter-generated exception messages and of formatted
      floats is kept symbolic (type [message]). *)

From Stdlib Require Import String Ascii List ZArith QArith Qminmax Lia Lqa Bool.
From Stdlib Require Import DecimalString.
Import ListNotations.
Local Open Scope string_scope.

(** ** Exceptions and results *)

Inductive exn : Type :=
| NameError (name : string)        (* name '<name>' is not defined *)
| TypeError                        (* operation applied to a wrong-typed value *)
| AttributeError                   (* method looked up on a value that lacks it *)
| CollaboratorError (msg : string) (* raised by salvar_etapa / salvar_erro *).

Inductive result (A : Type) : Type :=
| Ok (a : A)
| Raise (e : exn).
Arguments Ok {A} a.
Arguments Raise {A} e.

Definition rbind {A B} (r : result A) (k : A -> result B) : result B :=
  match r with
  | Ok a => k a
  | Raise e => Raise e
  end.

Declare Scope result_scope.
Delimit Scope result_scope with result.
Notation "x <- r ;; k" := (rbind r (fun x => k))
  (at level 61, r at next level, right associativity) : result_scope.

(** ** Text *)

Module Text.

Definition is_lower (c : ascii) : bool :=
  let n := nat_of_ascii c in (97 <=? n)%nat && (n <=? 122)%nat.

Definition is_upper (c : ascii) : bool :=
  let n := nat_of_ascii c in (65 <=? n)%nat && (n <=? 90)%nat.

Definition upper_char (c : ascii) : ascii :=
  if is_lower c then ascii_of_nat (nat_of_ascii c - 32) else c.

Definition lower_char (c : ascii) : ascii :=
  if is_upper c then ascii_of_nat (nat_of_ascii c + 32) else c.

Fixpoint smap (f : ascii -> ascii) (s : string) : string :=
  match s with
  | EmptyString => EmptyString
  | String c r => String (f c) (smap f r)
  end.

(** [str.upper()] and [str.lower()] *)
Definition upper : string -> string := smap upper_char.
Definition lower : string -> string := smap lower_char.

Fixpoint prefixb (p s : string) : bool :=
  match p, s with
  | EmptyString, _ => true
  | String a p', String b s' => Ascii.eqb a b && prefixb p' s'
  | String _ _, EmptyString => false
  end.

(** [needle in hay] *)
Fixpoint contains (needle hay : string) : bool :=
  prefixb needle hay ||
  match hay with
  | EmptyString => false
  | String _ r => contains needle r
  end.

(** [hay.count(needle)] for a non-empty needle: occurrences are counted
    left to right and do not overlap; [skip] is the number of characters
    still covered by the last occurrence counted. *)
Fixpoint count_from (needle : string) (skip : nat) (hay : string) : nat :=
  match hay with
  | EmptyString => 0
  | String _ r =>
      match skip with
      | S k => count_from needle k r
      | O => if prefixb needle hay
             then S (count_from needle (String.length needle - 1) r)
             else count_from needle 0 r
      end
  end.

Definition count (hay needle : string) : nat := count_from needle 0 hay.

(** [sep.join(parts)] *)
Fixpoint join (sep : string) (parts : list string) : string :=
  match parts with
  | [] => ""
  | [p] => p
  | p :: rest => p ++ sep ++ join sep rest
  end.

End Text.

(** ** Python values *)

#[warnings="-register-all"]
Inductive value : Type :=
| VNone
| VBool (b : bool)
| VInt (z : Z)
| VFloat (q : Q)
| VStr (s : string)
| VList (l : list value)
| VDict (d : list (string * value)).

Definition dict := list (string * value).

(** Structural induction that reaches inside lists and dicts. *)
Section ValueInd.
Variable P : value -> Prop.
Hypothesis HNone : P VNone.
Hypothesis HBool : forall b, P (VBool b).
Hypothesis HInt : forall z, P (VInt z).
Hypothesis HFloat : forall q, P (VFloat q).
Hypothesis HStr : forall s, P (VStr s).
Hypothesis HList : forall l, Forall P l -> P (VList l).
Hypothesis HDict : forall d, Forall (fun kv => P (snd kv)) d -> P (VDict d).

Fixpoint value_nested_ind (v : value) : P v :=
  match v with
  | VNone => HNone
  | VBool b => HBool b
  | VInt z => HInt z
  | VFloat q => HFloat q
  | VStr s => HStr s
  | VList l =>
      HList l
        ((fix go (l : list value) : Forall P l :=
            match l with
            | [] => Forall_nil _
            | x :: r => Forall_cons x (value_nested_ind x) (go r)
            end) l)
  | VDict d =>
      HDict d
        ((fix go (d : list (string * value)) : Forall (fun kv => P (snd kv)) d :=
            match d with
            | [] => Forall_nil _
            | (k, x) :: r =>
                Forall_cons (k, x) (value_nested_ind x) (go r)
            end) d)
  end.
End ValueInd.

Module Py.

(** Truth value testing ([if x], [not x], [x and y]). *)
Definition truthy (v : value) : bool :=
  match v with
  | VNone => false
  | VBool b => b
  | VInt z => negb (z =? 0)%Z
  | VFloat q => negb (Qeq_bool q 0)
  | VStr s => negb (String.length s =? 0)%nat
  | VList l => negb (length l =? 0)%nat
  | VDict d => negb (length d =? 0)%nat
  end.

(** [len(x)]: defined for strings, lists and dicts. *)
Definition len (v : value) : result nat :=
  match v with
  | VStr s => Ok (String.length s)
  | VList l => Ok (length l)
  | VDict d => Ok (length d)
  | _ => Raise TypeError
  end.

(** The numeric reading of a value in arithmetic and ordering against a
    number; [bool] counts as 0 or 1, everything else is a [TypeError]. *)
Definition num (v : value) : result Q :=
  match v with
  | VBool b => Ok (if b then 1 else 0)
  | VInt z => Ok (inject_Z z)
  | VFloat q => Ok q
  | _ => Raise TypeError
  end.

(** [d.get(key)] and [d.get(key, default)] on a dict. *)
Fixpoint lookup {A} (d : list (string * A)) (key : string) : option A :=
  match d with
  | [] => None
  | (k, x) :: r => if String.eqb k key then Some x else lookup r key
  end.

Definition get (d : dict) (key : string) (default : value) : value :=
  match lookup d key with
  | Some x => x
  | None => default
  end.

(** [d[key] = x]: replaces the value in place, or appends a new entry. *)
Fixpoint set {A} (d : list (string * A)) (key : string) (x : A)
  : list (string * A) :=
  match d with
  | [] => [(key, x)]
  | (k, y) :: r =>
      if String.eqb k key then (k, x) :: r else (k, y) :: set r key x
  end.

(** [x.get(key, default)] on an arbitrary value: only dicts have [get]. *)
Definition get_attr (v : value) (key : string) (default : value)
  : result value :=
  match v with
  | VDict d => Ok (get d key default)
  | _ => Raise AttributeError
  end.

Definition Qltb (a b : Q) : bool := negb (Qle_bool b a).

(** [min(a, b)] on floats: the first argument unless the second is smaller. *)
Definition min (a b : Q) : Q := if Qltb b a then b else a.

End Py.

(** ** Rendering values as text: [repr] and [str]

    The shortest-round-trip printing of floats is not modelled: it is the
    parameter [float_repr]. *)

Section Rendering.

Variable float_repr : Q -> string.

Definition squote : ascii := "039"%char.
Definition dquote : ascii := "034"%char.
Definition backslash : ascii := "092"%char.

Definition hex_digit (n : nat) : ascii :=
  nth n (list_ascii_of_string "0123456789abcdef") "0"%char.

(** How [repr] of a string writes one character between quotes [quote]. *)
Definition escape_char (quote c : ascii) : string :=
  let n := nat_of_ascii c in
  if Ascii.eqb c backslash then String backslash (String backslash "")
  else if Ascii.eqb c quote then String backslash (String quote "")
  else if (n =? 10)%nat then String backslash "n"
  else if (n =? 13)%nat then String backslash "r"
  else if (n =? 9)%nat then String backslash "t"
  else if (n <? 32)%nat || (n =? 127)%nat
       then String backslash
              (String "x" (String (hex_digit (n / 16))
                             (String (hex_digit (n mod 16)) "")))
  else String c "".

Fixpoint escape (quote : ascii) (s : string) : string :=
  match s with
  | EmptyString => ""
  | String c r => escape_char quote c ++ escape quote r
  end.

(** Single quotes, unless the text has a single quote and no double quote. *)
Definition quote_for (s : string) : ascii :=
  if Text.contains (String squote "") s
     && negb (Text.contains (String dquote "") s)
  then dquote else squote.

Definition repr_str (s : string) : string :=
  let q := quote_for s in
  String q (escape q s ++ String q "").

Definition repr_int (z : Z) : string := NilZero.string_of_int (Z.to_int z).

Fixpoint py_repr (v : value) : string :=
  match v with
  | VNone => "None"
  | VBool true => "True"
  | VBool false => "False"
  | VInt z => repr_int z
  | VFloat q => float_repr q
  | VStr s => repr_str s
  | VList l => "[" ++ Text.join ", " (map py_repr l) ++ "]"
  | VDict d =>
      "{" ++ Text.join ", "
               (map (fun kv : string * value =>
                       let (k, x) := kv in repr_str k ++ ": " ++ py_repr x) d)
          ++ "}"
  end.

(** [str(x)]: a string is itself, everything else prints as its [repr]. *)
Definition py_str (v : value) : string :=
  match v with
  | VStr s => s
  | _ => py_repr v
  end.

End Rendering.

(** ** Validation levels and their thresholds ([self.validation_levels]) *)

Inductive Level : Type := STRICT | MODERATE | FLEXIBLE | EMERGENCY.

Definition level_name (l : Level) : string :=
  match l with
  | STRICT => "STRICT"
  | MODERATE => "MODERATE"
  | FLEXIBLE => "FLEXIBLE"
  | EMERGENCY => "EMERGENCY"
  end.

Record Thresholds : Type := {
  min_content_length : Z;
  min_sources : Z;
  min_insights : Z;
  min_quality_score : Q;
  simulation_tolerance : Z
}.

Definition validation_levels (l : Level) : Thresholds :=
  match l with
  | STRICT =>
      {| min_content_length := 5000; min_sources := 5; min_insights := 10;
         min_quality_score := 80; simulation_tolerance := 0 |}
  | MODERATE =>
      {| min_content_length := 2000; min_sources := 3; min_insights := 5;
         min_quality_score := 60; simulation_tolerance := 5 |}
  | FLEXIBLE =>
      {| min_content_length := 500; min_sources := 1; min_insights := 3;
         min_quality_score := 40; simulation_tolerance := 10 |}
  | EMERGENCY =>
      {| min_content_length := 100; min_sources := 0; min_insights := 1;
         min_quality_score := 20; simulation_tolerance := 20 |}
  end.

(** ** The module namespace

    Global names are resolved when the code that mentions them runs.  The
    source file imports [logging], [time], [typing], [datetime] and the two
    collaborator functions; the simulation scorer also mentions [json].  The
    binding of that name is made explicit: [None] when the name is unbound,
    [Some dumps] when it is bound to a module whose
    [dumps(analysis, ensure_ascii=False)] is [dumps]. *)

Record Globals : Type := {
  g_json : option (dict -> result string)
}.

(** The namespace of the source file as written: no [import json]. *)
Definition module_globals : Globals := {| g_json := None |}.

(** ** Component scorers *)

Module Scorers.
Import Py.
Local Open Scope Q_scope.

Definition essential_sections : list string := ["avatar_ultra_detalhado"].

Definition optional_sections : list string :=
  ["drivers_mentais_customizados"; "provas_visuais_sugeridas";
   "sistema_anti_objecao"; "pre_pitch_invisivel"; "insights_exclusivos"].

(** [section in analysis and analysis[section]] as a condition *)
Definition section_filled (analysis : dict) (section : string) : bool :=
  match lookup analysis section with
  | Some x => truthy x
  | None => false
  end.

Definition Qlen {A} (l : list A) : Q := inject_Z (Z.of_nat (length l)).

Definition _validate_structure_flexible
  (analysis : dict) (thresholds : Thresholds) : Q :=
  let score := 0 in
  let score :=
    fold_left (fun score section =>
                 if section_filled analysis section then score + 50 else score)
      essential_sections score in
  let bonus_per_section := 50 / Qlen optional_sections in
  let score :=
    fold_left (fun score section =>
                 if section_filled analysis section
                 then score + bonus_per_section else score)
      optional_sections score in
  min score 100.

(** One of the two "scaled up to 30 points" blocks of the research scorer. *)
Definition scaled_points (x : Q) (threshold : Z) (score : Q) : Q :=
  if Qle_bool (inject_Z threshold) x then score + 30
  else if Qltb 0 x then score + (x / inject_Z threshold) * 30
  else score.

Definition _validate_research_flexible
  (analysis : dict) (thresholds : Thresholds) : result Q :=
  let research_data := get analysis "pesquisa_web_massiva" (VDict []) in
  if negb (truthy research_data) then Ok 20
  else
    let score := 20 in
    (stats <- get_attr research_data "estatisticas" (VDict []) ;;
     total_content_v <- get_attr stats "total_conteudo" (VInt 0) ;;
     total_content <- num total_content_v ;;
     let score :=
       scaled_points total_content (min_content_length thresholds) score in
     unique_sources_v <- get_attr stats "fontes_unicas" (VInt 0) ;;
     unique_sources <- num unique_sources_v ;;
     let score :=
       scaled_points unique_sources (min_sources thresholds) score in
     avg_quality_v <- get_attr stats "qualidade_media" (VInt 0) ;;
     avg_quality <- num avg_quality_v ;;
     let score := score + (avg_quality / 100) * 20 in
     Ok (min score 100))%result.

Definition avatar_sections : list string :=
  ["perfil_demografico"; "perfil_psicografico";
   "dores_viscerais"; "desejos_secretos"].

Definition is_str (section : string) (x : value) : bool :=
  match x with
  | VStr s => String.eqb s section
  | _ => false
  end.

(** The body of the loop over [avatar_sections]: the new score.
    [section in avatar] is key membership on a dict, a substring test on a
    string, element membership on a list, and a [TypeError] on anything
    else; [avatar[section]] with a string index exists on dicts only. *)
Definition avatar_section_step
  (avatar : value) (section_score : Q) (score : Q) (section : string)
  : result Q :=
  match avatar with
  | VDict d =>
      match lookup d section with
      | Some x =>
          if truthy x then
            match x with
            | VList l =>
                Ok (if (0 <? length l)%nat then score + section_score else score)
            | VDict e =>
                Ok (if (0 <? length e)%nat then score + section_score else score)
            | VStr s =>
                Ok (if (10 <? String.length s)%nat
                    then score + section_score else score)
            | _ => Ok score
            end
          else Ok score
      | None => Ok score
      end
  | VStr s => if Text.contains section s then Raise TypeError else Ok score
  | VList l => if existsb (is_str section) l then Raise TypeError else Ok score
  | _ => Raise TypeError
  end.

Fixpoint for_each {A S} (step : S -> A -> result S) (items : list A) (s : S)
  : result S :=
  match items with
  | [] => Ok s
  | x :: rest => (s' <- step s x ;; for_each step rest s')%result
  end.

Definition _validate_avatar_flexible
  (analysis : dict) (thresholds : Thresholds) : result Q :=
  let avatar := get analysis "avatar_ultra_detalhado" (VDict []) in
  if negb (truthy avatar) then Ok 0
  else
    let score := 20 in
    let section_score := 80 / Qlen avatar_sections in
    (score <- for_each (avatar_section_step avatar section_score)
                avatar_sections score ;;
     Ok (min score 100))%result.

(** [[len(insight) for insight in insights]], left to right. *)
Fixpoint lens (items : list value) : result (list nat) :=
  match items with
  | [] => Ok []
  | x :: rest =>
      (n <- len x ;; ns <- lens rest ;; Ok (n :: ns))%result
  end.

Definition _validate_insights_flexible
  (analysis : dict) (thresholds : Thresholds) : result Q :=
  let insights := get analysis "insights_exclusivos" (VList []) in
  match insights with
  | VList l =>
      if negb (truthy insights) then Ok 10
      else
        let score := 10 in
        let score :=
          if Qle_bool (inject_Z (min_insights thresholds)) (Qlen l)
          then score + 50
          else if Qltb 0 (Qlen l)
               then score + (Qlen l / inject_Z (min_insights thresholds)) * 50
               else score in
        (sizes <- lens l ;;
         let substantial_insights := filter (fun n => (50 <? n)%nat) sizes in
         let score :=
           if negb (length substantial_insights =? 0)%nat
           then score + (Qlen substantial_insights / Qlen l) * 40
           else score in
         Ok (min score 100))%result
  | _ => Ok 10
  end.

Definition simulation_indicators : list string :=
  ["n/a"; "não informado"; "customizado para"; "baseado em dados";
   "específico para"; "exemplo genérico"; "placeholder"; "template"].

(** The loop that adds [analysis_str.count(indicator)] over the indicators. *)
Definition simulation_count (analysis_str : string) : Z :=
  fold_left (fun n indicator => (n + Z.of_nat (Text.count analysis_str indicator))%Z)
    simulation_indicators 0%Z.

(** The four tiers that close the simulation scorer. *)
Definition simulation_tier (simulation_count tolerance : Z) : Q :=
  if (simulation_count <=? tolerance)%Z then 100
  else if (simulation_count <=? tolerance * 2)%Z then 70
  else if (simulation_count <=? tolerance * 3)%Z then 40
  else 10.

Definition _detect_simulation_with_tolerance
  (g : Globals) (analysis : dict) (thresholds : Thresholds) : result Q :=
  match g_json g with
  | None => Raise (NameError "json")
  | Some dumps =>
      (text <- dumps analysis ;;
       let analysis_str := Text.lower text in
       Ok (simulation_tier (simulation_count analysis_str)
             (simulation_tolerance thresholds)))%result
  end.

End Scorers.

(** ** Verdicts *)

(** Text built by the validator.  Exception text ([str(e)]) and formatted
    floats are kept symbolic. *)
Inductive message : Type :=
| Literal (s : string)
| ScoreBelow (quality_score threshold : Q) (* "Score {q:.1f}% < {threshold}%" *)
| ErroValidacao (e : exn)                  (* "Erro na validação: {str(e)}" *)
| ErroTecnico (e : exn)                    (* "Erro técnico: {str(e)}" *).

(** The dict returned as validation result.  The keys that only some
    verdicts carry are optional fields. *)
Record Verdict : Type := {
  valid : bool;
  level : string;
  quality_score : Q;
  errors : list message;
  warnings : list message;
  component_scores : list (string * Q);
  primary_reason : message;
  timestamp : string;
  validation_level : option string;
  recommendation : option string;
  emergency_mode : option bool;
  data_preserved : option bool;
  can_continue : option bool;
  forced : option bool
}.

Definition with_component (key : string) (score : Q) (v : Verdict) : Verdict :=
  {| valid := valid v; level := level v; quality_score := quality_score v;
     errors := errors v; warnings := warnings v;
     component_scores := Py.set (component_scores v) key score;
     primary_reason := primary_reason v; timestamp := timestamp v;
     validation_level := validation_level v; recommendation := recommendation v;
     emergency_mode := emergency_mode v; data_preserved := data_preserved v;
     can_continue := can_continue v; forced := forced v |}.

Definition with_quality_score (q : Q) (v : Verdict) : Verdict :=
  {| valid := valid v; level := level v; quality_score := q;
     errors := errors v; warnings := warnings v;
     component_scores := component_scores v;
     primary_reason := primary_reason v; timestamp := timestamp v;
     validation_level := validation_level v; recommendation := recommendation v;
     emergency_mode := emergency_mode v; data_preserved := data_preserved v;
     can_continue := can_continue v; forced := forced v |}.

Definition with_valid (b : bool) (v : Verdict) : Verdict :=
  {| valid := b; level := level v; quality_score := quality_score v;
     errors := errors v; warnings := warnings v;
     component_scores := component_scores v;
     primary_reason := primary_reason v; timestamp := timestamp v;
     validation_level := validation_level v; recommendation := recommendation v;
     emergency_mode := emergency_mode v; data_preserved := data_preserved v;
     can_continue := can_continue v; forced := forced v |}.

Definition with_primary_reason (m : message) (v : Verdict) : Verdict :=
  {| valid := valid v; level := level v; quality_score := quality_score v;
     errors := errors v; warnings := warnings v;
     component_scores := component_scores v;
     primary_reason := m; timestamp := timestamp v;
     validation_level := validation_level v; recommendation := recommendation v;
     emergency_mode := emergency_mode v; data_preserved := data_preserved v;
     can_continue := can_continue v; forced := forced v |}.

Definition with_error (m : message) (v : Verdict) : Verdict :=
  {| valid := valid v; level := level v; quality_score := quality_score v;
     errors := errors v ++ [m]; warnings := warnings v;
     component_scores := component_scores v;
     primary_reason := primary_reason v; timestamp := timestamp v;
     validation_level := validation_level v; recommendation := recommendation v;
     emergency_mode := emergency_mode v; data_preserved := data_preserved v;
     can_continue := can_continue v; forced := forced v |}.

Definition with_approval (lvl rec : string) (v : Verdict) : Verdict :=
  {| valid := valid v; level := level v; quality_score := quality_score v;
     errors := errors v; warnings := warnings v;
     component_scores := component_scores v;
     primary_reason := primary_reason v; timestamp := timestamp v;
     validation_level := Some lvl; recommendation := Some rec;
     emergency_mode := emergency_mode v; data_preserved := data_preserved v;
     can_continue := can_continue v; forced := forced v |}.

(** ** Programs with state and exceptions

    [Prog S A] is a computation over a mutable state [S] that returns an [A]
    or raises; a raised exception keeps the state changes made before it. *)

Definition Prog (S A : Type) : Type := S -> result A * S.

Module Prog.
Definition ret {S A} (a : A) : Prog S A := fun s => (Ok a, s).
Definition bind {S A B} (c : Prog S A) (k : A -> Prog S B) : Prog S B :=
  fun s =>
    match c s with
    | (Ok a, s') => k a s'
    | (Raise e, s') => (Raise e, s')
    end.
Definition lift {S A} (r : result A) : Prog S A := fun s => (r, s).
Definition get {S} : Prog S S := fun s => (Ok s, s).
Definition modify {S} (f : S -> S) : Prog S unit := fun s => (Ok tt, f s).
(** [try: body  except Exception as e: handler e] *)
Definition try_except {S A} (body : Prog S A) (handler : exn -> Prog S A)
  : Prog S A :=
  fun s =>
    match body s with
    | (Ok a, s') => (Ok a, s')
    | (Raise e, s') => handler e s'
    end.
End Prog.

Declare Scope prog_scope.
Delimit Scope prog_scope with prog.
Notation "x <- c ;; k" := (Prog.bind c (fun x => k))
  (at level 61, c at next level, right associativity) : prog_scope.
Notation "c ;;; k" := (Prog.bind c (fun _ => k))
  (at level 61, right associativity) : prog_scope.

(** ** The world outside the validator

    The clock read by [datetime.now().isoformat()] and the auto-save
    collaborator ([salvar_etapa], [salvar_erro] of
    [services.auto_save_manager], which is not part of this file).  Every call
    made to the collaborator is appended to a journal; whether a call returns
    or raises is decided by the environment from the calls made before it and
    the call itself. *)

Inductive payload : Type :=
| Attempt (lvl : string) (res : Verdict) (approved : bool)
    (* {"level": .., "result": .., "approved": ..} *)
| Final (v : Verdict).

Inductive call : Type :=
| salvar_etapa_call (nome : string) (dados : payload) (categoria : string)
| salvar_erro_call (nome : string) (erro : exn) (session_id : option string).

Record World : Type := {
  ticks : nat;           (* clock readings taken so far *)
  journal : list call    (* collaborator calls made so far *)
}.

Record Env : Type := {
  clock : nat -> string;
  float_repr : Q -> string;
  collaborator : list call -> call -> option exn   (* [Some e]: raises [e] *)
}.

Definition M (A : Type) : Type := Prog World A.

Definition now (env : Env) : M string :=
  fun w => (Ok (clock env (ticks w)),
            {| ticks := S (ticks w); journal := journal w |}).

Definition invoke (env : Env) (c : call) : M unit :=
  fun w =>
    let w' := {| ticks := ticks w; journal := journal w ++ [c] |} in
    match collaborator env (journal w) c with
    | None => (Ok tt, w')
    | Some e => (Raise e, w')
    end.

Definition salvar_etapa (env : Env) (nome : string) (dados : payload)
  (categoria : string) : M unit :=
  invoke env (salvar_etapa_call nome dados categoria).

Definition salvar_erro (env : Env) (nome : string) (erro : exn)
  (session_id : option string) : M unit :=
  invoke env (salvar_erro_call nome erro session_id).

(** ** The validator

    Calls to [logger] have no effect on the results and are left out. *)

Module Validator.
Import Scorers.
Local Open Scope Q_scope.

Definition mean (scores : list Q) : Q :=
  fold_left Qplus scores 0 / Qlen scores.

(** The [try] block of [_validate_at_level], acting on
    [validation_result]. *)
Definition scoring (g : Globals) (analysis : dict) (thresholds : Thresholds)
  : Prog Verdict unit :=
  (structure_score <-
     Prog.ret (_validate_structure_flexible analysis thresholds) ;;
   Prog.modify (with_component "structure" structure_score) ;;;
   research_score <-
     Prog.lift (_validate_research_flexible analysis thresholds) ;;
   Prog.modify (with_component "research" research_score) ;;;
   avatar_score <-
     Prog.lift (_validate_avatar_flexible analysis thresholds) ;;
   Prog.modify (with_component "avatar" avatar_score) ;;;
   insights_score <-
     Prog.lift (_validate_insights_flexible analysis thresholds) ;;
   Prog.modify (with_component "insights" insights_score) ;;;
   simulation_score <-
     Prog.lift (_detect_simulation_with_tolerance g analysis thresholds) ;;
   Prog.modify (with_component "simulation" simulation_score) ;;;
   let scores := [structure_score; research_score; avatar_score;
                  insights_score; simulation_score] in
   Prog.modify (with_quality_score (mean scores)) ;;;
   Prog.modify (fun r =>
     with_valid (Qle_bool (min_quality_score thresholds) (quality_score r)) r) ;;;
   Prog.modify (fun r =>
     if negb (valid r)
     then with_primary_reason
            (ScoreBelow (quality_score r) (min_quality_score thresholds)) r
     else r))%prog.

(** The [except Exception as e] block of [_validate_at_level]. *)
Definition scoring_failed (e : exn) : Prog Verdict unit :=
  Prog.modify (fun r =>
    with_primary_reason (ErroTecnico e) (with_error (ErroValidacao e) r)).

Definition fresh_result (lvl : Level) (ts : string) : Verdict :=
  {| valid := false; level := level_name lvl; quality_score := 0;
     errors := []; warnings := []; component_scores := [];
     primary_reason := Literal ""; timestamp := ts;
     validation_level := None; recommendation := None;
     emergency_mode := None; data_preserved := None;
     can_continue := None; forced := None |}.

(** [_validate_at_level] once the clock has been read: both the [try] block
    and the handler end in [return validation_result]. *)
Definition assess (g : Globals) (analysis : dict) (lvl : Level) (ts : string)
  : Verdict :=
  let thresholds := validation_levels lvl in
  snd (Prog.try_except (scoring g analysis thresholds) scoring_failed
         (fresh_result lvl ts)).

Definition _validate_at_level (g : Globals) (env : Env) (analysis : dict)
  (lvl : Level) (session_id : option string) : M Verdict :=
  (ts <- now env ;; Prog.ret (assess g analysis lvl ts))%prog.

Definition _get_level_recommendation (lvl : Level) : string :=
  match lvl with
  | STRICT =>
      "✅ EXCELENTE: Análise de qualidade premium - prosseguir com confiança total"
  | MODERATE =>
      "👍 BOM: Análise de qualidade adequada - prosseguir com implementação"
  | FLEXIBLE =>
      "⚠️ ACEITÁVEL: Análise com limitações - considere melhorar APIs para qualidade superior"
  | EMERGENCY =>
      "🚨 EMERGÊNCIA: Análise mínima - recomenda-se reexecutar com configuração completa"
  end.

Definition emergency_verdict (ts : string) : Verdict :=
  {| valid := true;
     level := "EMERGENCY_OVERRIDE";
     quality_score := 25;
     errors := [];
     warnings := [Literal "Validação em modo de emergência";
                  Literal "Qualidade pode estar comprometida";
                  Literal "Dados intermediários preservados"];
     component_scores := [("structure", 25); ("research", 25); ("avatar", 25);
                          ("insights", 25); ("simulation", 25)];
     primary_reason :=
       Literal "Modo de emergência ativado - análise prossegue com dados disponíveis";
     timestamp := ts;
     validation_level := None;
     recommendation :=
       Some "🚨 EMERGÊNCIA: Configure APIs e reexecute para qualidade completa";
     emergency_mode := Some true;
     data_preserved := Some true;
     can_continue := Some true;
     forced := None |}.

Definition _create_emergency_validation (env : Env) (analysis : dict)
  (session_id : option string) : M Verdict :=
  (ts <- now env ;;
   let emergency_validation := emergency_verdict ts in
   salvar_etapa env "validacao_emergencia" (Final emergency_validation)
     "analise_completa" ;;;
   Prog.ret emergency_validation)%prog.

Definition validation_order : list Level :=
  [STRICT; MODERATE; FLEXIBLE; EMERGENCY].

(** The [for level in validation_levels] loop: [Some v] when the loop
    returns [v], [None] when it runs to its end. *)
Fixpoint try_levels (g : Globals) (env : Env) (analysis : dict)
  (session_id : option string) (levels : list Level) : M (option Verdict) :=
  match levels with
  | [] => Prog.ret None
  | lvl :: rest =>
      (validation_result <- _validate_at_level g env analysis lvl session_id ;;
       if valid validation_result
       then Prog.ret
              (Some (with_approval (level_name lvl)
                       (_get_level_recommendation lvl) validation_result))
       else
         salvar_etapa env
           ("validacao_tentativa_" ++ Text.lower (level_name lvl))
           (Attempt (level_name lvl) validation_result false)
           "analise_completa" ;;;
         try_levels g env analysis session_id rest)%prog
  end.

Definition validate_with_progressive_tolerance (g : Globals) (env : Env)
  (analysis : dict) (session_id : option string) : M Verdict :=
  Prog.try_except
    (approved <- try_levels g env analysis session_id validation_order ;;
     match approved with
     | Some validation_result => Prog.ret validation_result
     | None => _create_emergency_validation env analysis session_id
     end)%prog
    (fun e =>
       salvar_erro env "validacao_critica" e session_id ;;;
       _create_emergency_validation env analysis session_id)%prog.

Definition force_validation_pass (env : Env) (analysis : dict)
  (reason : string) : M Verdict :=
  (ts <- now env ;;
   let forced_validation :=
     {| valid := true;
        level := "FORCED_PASS";
        quality_score := 50;
        errors := [];
        warnings := [Literal ("Validação forçada: " ++ reason)];
        component_scores := [("structure", 50); ("research", 50); ("avatar", 50);
                             ("insights", 50); ("simulation", 50)];
        primary_reason := Literal reason;
        timestamp := ts;
        validation_level := None;
        recommendation := Some "Validação forçada - prosseguir com cautela";
        emergency_mode := None;
        data_preserved := None;
        can_continue := None;
        forced := Some true |} in
   salvar_etapa env "validacao_forcada" (Final forced_validation)
     "analise_completa" ;;;
   Prog.ret forced_validation)%prog.

(** [should_generate_pdf_flexible]: the decision and its explanation. *)
Definition should_generate_pdf_flexible (analysis : dict)
  : result (bool * string) :=
  if negb (Py.truthy (VDict analysis)) then Ok (false, "Análise vazia")
  else if negb (Py.truthy (Py.get analysis "avatar_ultra_detalhado" VNone))
  then Ok (false, "Avatar ausente - mínimo necessário para PDF")
  else
    let insights := Py.get analysis "insights_exclusivos" (VList []) in
    (n <- Py.len insights ;;
     if (n <? 1)%nat
     then Ok (false, "Nenhum insight disponível para PDF")
     else Ok (true, "Análise adequada para PDF (critérios flexíveis)"))%result.

End Validator.

(** ** Cleaning an analysis for output *)

Module Cleaner.

Definition invalid_indicators : list string := ["ERRO_"; "FALHA_"; "INVALID_"].

(** [any(indicator in text.upper() for indicator in invalid_indicators)] *)
Definition flagged (text : string) : bool :=
  existsb (fun indicator => Text.contains indicator (Text.upper text))
    invalid_indicators.

Section WithFloatRepr.
Variable fr : Q -> string.

(** The nested function [clean_recursive]; the two comprehensions skip
    the flagged keys (of a dict) and the flagged items (of a list). *)
Fixpoint clean_recursive (obj : value) : value :=
  match obj with
  | VDict d =>
      VDict ((fix entries (d : list (string * value)) :=
                match d with
                | [] => []
                | (k, v) :: rest =>
                    if flagged k then entries rest
                    else (k, clean_recursive v) :: entries rest
                end) d)
  | VList l =>
      VList ((fix items (l : list value) :=
                match l with
                | [] => []
                | item :: rest =>
                    if flagged (py_str fr item) then items rest
                    else clean_recursive item :: items rest
                end) l)
  | _ => obj
  end.

(** The dict comprehension on its own. *)
Fixpoint clean_entries (d : dict) : dict :=
  match d with
  | [] => []
  | (k, v) :: rest =>
      if flagged k then clean_entries rest
      else (k, clean_recursive v) :: clean_entries rest
  end.

(** The list comprehension on its own. *)
Fixpoint clean_items (l : list value) : list value :=
  match l with
  | [] => []
  | item :: rest =>
      if flagged (py_str fr item) then clean_items rest
      else clean_recursive item :: clean_items rest
  end.

Definition Zlen (s : string) : Z := Z.of_nat (String.length s).

Definition validation_metadata (ts : string) (analysis cleaned : dict)
  : value :=
  VDict [("cleaned_at", VStr ts);
         ("cleaning_level", VStr "flexible");
         ("original_size", VInt (Zlen (py_str fr (VDict analysis))));
         ("cleaned_size", VInt (Zlen (py_str fr (VDict cleaned))));
         ("data_preserved", VBool true);
         ("simulation_tolerance", VStr "high")].

End WithFloatRepr.

Definition clean_analysis_for_output_flexible (env : Env) (analysis : dict)
  : M dict :=
  let fr := float_repr env in
  let cleaned := clean_entries fr analysis in
  (ts <- now env ;;
   Prog.ret (Py.set cleaned "validation_metadata"
               (validation_metadata fr ts analysis cleaned)))%prog.

End Cleaner.

(** ** Vocabulary for the statements *)

(** The name under which a collaborator call is filed. *)
Definition call_nome (c : call) : string :=
  match c with
  | salvar_etapa_call nome _ _ => nome
  | salvar_erro_call nome _ _ => nome
  end.

(** A profile is met when the quality score of its assessment reaches its
    [min_quality_score] (the score does not depend on the timestamp the
    assessment carries, see [level_met_valid]). *)
Definition level_met (g : Globals) (analysis : dict) (lvl : Level) : bool :=
  Qle_bool (min_quality_score (validation_levels lvl))
    (quality_score (Validator.assess g analysis lvl "")).

(** What [_validate_at_level] returns from its handler. *)
Definition error_branch (lvl : Level) (ts : string) (e : exn) (r : Verdict)
  : Prop :=
  valid r = false /\ level r = level_name lvl /\ quality_score r = 0%Q /\
  errors r = [ErroValidacao e] /\ primary_reason r = ErroTecnico e /\
  timestamp r = ts.

Definition rejected (g : Globals) (analysis : dict) (lvl : Level) : Prop :=
  level_met g analysis lvl = false.

(** Between worlds [w] and [w'] the collaborator was called under exactly
    these names, in this order. *)
Definition filed (w w' : World) (names : list string) : Prop :=
  map call_nome (journal w') = (map call_nome (journal w) ++ names)%list.

(** The name under which a rejected attempt is filed. *)
Definition attempt_nome (lvl : Level) : string :=
  "validacao_tentativa_" ++ Text.lower (level_name lvl).

(** The collaborator never raises. *)
Definition quiet (env : Env) : Prop :=
  forall j c, collaborator env j c = None.

(** The collaborator accepts error reports and the emergency record (it may
    still refuse the records of rejected attempts). *)
Definition emergency_path_ok (env : Env) : Prop :=
  (forall j v, collaborator env j
                 (salvar_etapa_call "validacao_emergencia" (Final v)
                    "analise_completa") = None) /\
  (forall j e sid, collaborator env j
                     (salvar_erro_call "validacao_critica" e sid) = None).

(** The component scores of a verdict are the five named ones. *)
Definition five_components (v : Verdict) : Prop :=
  map fst (component_scores v)
  = ["structure"; "research"; "avatar"; "insights"; "simulation"].

(** Sample environments: a fixed clock, and a collaborator that always
    returns, that fails on the emergency record only, that fails on every
    record of a rejected attempt only, or that fails on every call. *)
Definition fixed_clock : nat -> string := fun _ => "2025-01-01T00:00:00".
Definition plain_float : Q -> string := fun _ => "0.0".

Definition env_quiet : Env :=
  {| clock := fixed_clock; float_repr := plain_float;
     collaborator := fun _ _ => None |}.

Definition env_emergency_save_fails : Env :=
  {| clock := fixed_clock; float_repr := plain_float;
     collaborator := fun _ c =>
       if String.eqb (call_nome c) "validacao_emergencia"
       then Some (CollaboratorError "disk full") else None |}.

Definition env_attempt_save_fails : Env :=
  {| clock := fixed_clock; float_repr := plain_float;
     collaborator := fun _ c =>
       if Text.prefixb "validacao_tentativa_" (call_nome c)
       then Some (CollaboratorError "disk full") else None |}.

Definition env_all_fail : Env :=
  {| clock := fixed_clock; float_repr := plain_float;
     collaborator := fun _ _ => Some (CollaboratorError "disk full") |}.

Definition start : World := {| ticks := 0; journal := [] |}.

(** A sample analysis and a namespace in which [json] is bound to a module
    whose [dumps] renders every analysis without a genericness phrase. *)
Definition sample_analysis : dict :=
  [("avatar_ultra_detalhado",
     VDict [("perfil_demografico", VDict [("idade", VStr "30-45")]);
            ("perfil_psicografico", VDict [("valores", VStr "autonomia")]);
            ("dores_viscerais", VList [VStr "falta de tempo"]);
            ("desejos_secretos", VList [VStr "reconhecimento"])]);
   ("insights_exclusivos",
     VList [VStr "um"; VStr "dois"; VStr "tres"; VStr "quatro"; VStr "cinco"])].

Definition json_bound : Globals :=
  {| g_json := Some (fun _ => Ok "{}") |}.

(** Characters that can take part in an indicator once upper-cased: the
    capital letters and the underscore. *)
Definition marker_char (c : ascii) : bool :=
  Text.is_upper c || Ascii.eqb c "_"%char.

Fixpoint all_chars (p : ascii -> bool) (s : string) : bool :=
  match s with
  | EmptyString => true
  | String c r => p c && all_chars p r
  end.

(** ** Validating one component on its own *)

Module Components.
Import Py.
Local Open Scope Q_scope.

(** The text of [reason]: fixed for an empty component, otherwise
    "Score: {score:.1f}% (Válido)" or "... (Limitado)". *)
Inductive component_reason : Type :=
| ComponenteVazio
| ScoreReason (score : Q) (is_valid : bool).

Record ComponentResult : Type := {
  c_valid : bool;
  c_score : Q;
  c_reason : component_reason;
  c_can_continue : bool;
  c_recommendation : string
}.

(** [d.get(key) and len(d[key]) >= 3] *)
Definition has_three (d : dict) (key : string) : result bool :=
  let x := get d key VNone in
  if truthy x
  then (n <- len x ;; Ok (3 <=? n)%nat)%result
  else Ok false.

Definition _validate_avatar_specific (avatar_data : value) : result Q :=
  match avatar_data with
  | VDict d =>
      let bonus := 0 in
      let bonus :=
        if truthy (get d "perfil_demografico" VNone) then bonus + 5 else bonus in
      (dores <- has_three d "dores_viscerais" ;;
       let bonus := if dores then bonus + 10 else bonus in
       desejos <- has_three d "desejos_secretos" ;;
       let bonus := if desejos then bonus + 10 else bonus in
       Ok bonus)%result
  | _ => Ok 0
  end.

Definition _validate_drivers_specific (drivers_data : value) : Q :=
  if negb (truthy drivers_data) then 0
  else
    let bonus := 0 in
    match drivers_data with
    | VDict d =>
        match lookup d "drivers_customizados" with
        | Some drivers =>
            match drivers with
            | VList l => if (2 <=? length l)%nat then bonus + 15 else bonus
            | _ => bonus
            end
        | None => bonus
        end
    | VList l => if (2 <=? length l)%nat then bonus + 15 else bonus
    | _ => bonus
    end.

Definition _validate_insights_specific (insights_data : value) : Q :=
  match insights_data with
  | VList l =>
      let bonus := 0 in
      if (5 <=? length l)%nat then bonus + 15
      else if (3 <=? length l)%nat then bonus + 10
      else if (1 <=? length l)%nat then bonus + 5
      else bonus
  | _ => 0
  end.

(** The base points for a component that has content. *)
Definition content_points (component_data : value) (score : Q) : Q :=
  match component_data with
  | VDict d => if (0 <? length d)%nat then score + 25 else score
  | VList l => if (0 <? length l)%nat then score + 25 else score
  | VStr s => if (50 <? String.length s)%nat then score + 25 else score
  | _ => score
  end.

Definition validate_component_individually
  (component_name : string) (component_data : value)
  : result ComponentResult :=
  if negb (truthy component_data)
  then Ok {| c_valid := false;
             c_score := 0;
             c_reason := ComponenteVazio;
             c_can_continue := true;
             c_recommendation :=
               "Componente ausente mas análise pode prosseguir" |}
  else
    let score := 50 in
    let score := content_points component_data score in
    (score <-
       (if String.eqb component_name "avatar_ultra_detalhado"
        then (bonus <- _validate_avatar_specific component_data ;;
              Ok (score + bonus))
        else if String.eqb component_name "drivers_mentais_customizados"
        then Ok (score + _validate_drivers_specific component_data)
        else if String.eqb component_name "insights_exclusivos"
        then Ok (score + _validate_insights_specific component_data)
        else Ok score) ;;
     let is_valid := Qle_bool 40 score in
     Ok {| c_valid := is_valid;
           c_score := min score 100;
           c_reason := ScoreReason score is_valid;
           c_can_continue := true;
           c_recommendation :=
             if is_valid then "Válido para prosseguir"
             else "Limitado mas pode prosseguir" |})%result.

End Components.

(** ** More vocabulary *)

(** The position of a level in the order in which the levels are tried. *)
Definition level_index (lvl : Level) : nat :=
  match lvl with
  | STRICT => 0
  | MODERATE => 1
  | FLEXIBLE => 2
  | EMERGENCY => 3
  end.

(** A value is clear when, at every depth, no map key is flagged and no
    list item has a flagged text. *)
Fixpoint keys_clear (fr : Q -> string) (v : value) : bool :=
  match v with
  | VDict d =>
      (fix entries (d : list (string * value)) : bool :=
         match d with
         | [] => true
         | (k, x) :: rest =>
             negb (Cleaner.flagged k) && keys_clear fr x && entries rest
         end) d
  | VList l =>
      (fix items (l : list value) : bool :=
         match l with
         | [] => true
         | x :: rest =>
             negb (Cleaner.flagged (py_str fr x)) && keys_clear fr x && items rest
         end) l
  | _ => true
  end.


Definition count_true {A} (p : A -> bool) (l : list A) : Q :=
  inject_Z (Z.of_nat (length (filter p l))).

(** An item of which [len] can be taken. *)
Definition sized (v : value) : bool :=
  match v with
  | VStr _ | VList _ | VDict _ => true
  | _ => false
  end.

(** Whether scoring an avatar that is not a map fails: a number has no
    membership test, and a text or a list that mentions a subsection name is
    then indexed by that name. *)
Definition avatar_breaks (avatar : value) : bool :=
  match avatar with
  | VStr s =>
      existsb (fun section => Text.contains section s) Scorers.avatar_sections
  | VList l =>
      existsb (fun section => existsb (Scorers.is_str section) l)
        Scorers.avatar_sections
  | _ => true
  end.

(** [th'] asks for no more than [th] on every count, and tolerates at
    least as many genericness phrases. *)
Definition looser (th th' : Thresholds) : Prop :=
  (min_content_length th' <= min_content_length th)%Z /\
  (min_sources th' <= min_sources th)%Z /\
  (min_insights th' <= min_insights th)%Z /\
  (min_quality_score th' <= min_quality_score th)%Q /\
  (simulation_tolerance th <= simulation_tolerance th')%Z.

(** The points for the number of insights. *)
Definition quantity_points (n : Q) (threshold : Z) : Q :=
  if Qle_bool (inject_Z threshold) n then 10 + 50
  else if Py.Qltb 0 n then 10 + n / inject_Z threshold * 50
  else 10.

(** The points added for the insights of more than fifty characters. *)
Definition quality_points (sizes : list nat) (n : Q) (score : Q) : Q :=
  if negb (length (filter (fun k => (50 <? k)%nat) sizes) =? 0)%nat
  then score + Scorers.Qlen (filter (fun k => (50 <? k)%nat) sizes) / n * 40
  else score.

(** The record filed for a rejected attempt at a level. *)
Definition attempt_call (lvl : Level) (res : Verdict) : call :=
  salvar_etapa_call (attempt_nome lvl) (Attempt (level_name lvl) res false)
    "analise_completa".

Definition emergency_call (ts : string) : call :=
  salvar_etapa_call "validacao_emergencia"
    (Final (Validator.emergency_verdict ts)) "analise_completa".

(** What the module as written files for a level when the four scorers
    before the simulation scorer return. *)
Definition name_error_result (lvl : Level) (ts : string) (s1 s2 s3 s4 : Q)
  : Verdict :=
  {| valid := false; level := level_name lvl; quality_score := 0;
     errors := [ErroValidacao (NameError "json")]; warnings := [];
     component_scores := [("structure", s1); ("research", s2);
                          ("avatar", s3); ("insights", s4)];
     primary_reason := ErroTecnico (NameError "json"); timestamp := ts;
     validation_level := None; recommendation := None;
     emergency_mode := None; data_preserved := None;
     can_continue := None; forced := None |}.

(** The entry under [key] is present and not empty, but has no length. *)
Definition length_missing (d : dict) (key : string) : bool :=
  Py.truthy (Py.get d key VNone) && negb (sized (Py.get d key VNone)).

(** ** The agent test route (routes/enhanced_analysis.py)

    [test_psychological_agents] is modelled over its two inputs: the outcome
    of [request.get_json()] and the registry [psychological_agents.agents],
    a dict from names to agents in insertion order.  An agent is what its
    [execute_analysis] does with the test data: it returns a value or raises.
    The response is the body handed to [jsonify] and the status code. *)

Module Routes.

Definition agent : Type := value -> result value.

Definition default_test_data : value :=
  VDict [("segmento", VStr "Produtos Digitais");
         ("produto", VStr "Curso Online");
         ("publico", VStr "Empreendedores")].

(** What is stored under an agent's name when all agents are tested. *)
Inductive agent_report : Type :=
| Succeeded (result status : value)  (* 'success': True, 'result', 'status' *)
| Failed (e : exn)                    (* 'success': False, 'error': str(e) *).

Definition success (r : agent_report) : bool :=
  match r with
  | Succeeded _ _ => true
  | Failed _ => false
  end.

Inductive body : Type :=
| AllTested (agent_results : list (string * agent_report))
    (total_agents successful_agents : nat)
| OneTested (agent_name : string) (result status : value)
| AgentNotFound (available_agents : list string)
| TestError (e : exn).

(** The body of the loop over the registry: the inner [try] and its
    handler. *)
Definition test_one (a : agent) (test_data : value) : agent_report :=
  match (result <- a test_data ;;
         status <- Py.get_attr result "status" (VStr "unknown") ;;
         Ok (Succeeded result status))%result with
  | Ok report => report
  | Raise e => Failed e
  end.

Definition test_all (agents : list (string * agent)) (test_data : value)
  : list (string * agent_report) :=
  fold_left (fun results entry =>
               Py.set results (fst entry) (test_one (snd entry) test_data))
    agents [].

(** [agent_name in psychological_agents.agents]: lists and maps cannot be
    hashed; of the other values only a text can equal a name. *)
Definition registered (agents : list (string * agent)) (agent_name : value)
  : result (option (string * agent)) :=
  match agent_name with
  | VList _ | VDict _ => Raise TypeError
  | VStr s =>
      Ok (match Py.lookup agents s with
          | Some a => Some (s, a)
          | None => None
          end)
  | _ => Ok None
  end.

Definition is_all (agent_name : value) : bool :=
  match agent_name with
  | VStr s => String.eqb s "all"
  | _ => false
  end.

Definition test_psychological_agents
  (agents : list (string * agent)) (request_json : result value)
  : body * nat :=
  match (data <- request_json ;;
         agent_name <- Py.get_attr data "agent" (VStr "all") ;;
         test_data <- Py.get_attr data "test_data" default_test_data ;;
         if is_all agent_name
         then
           let results := test_all agents test_data in
           Ok (AllTested results (length agents)
                 (length (filter (fun r => success (snd r)) results)),
               200%nat)
         else
           found <- registered agents agent_name ;;
           match found with
           | Some (name, a) =>
               result <- a test_data ;;
               status <- Py.get_attr result "status" (VStr "unknown") ;;
               Ok (OneTested name result status, 200%nat)
           | None => Ok (AgentNotFound (map fst agents), 400%nat)
           end)%result with
  | Ok response => response
  | Raise e => (TestError e, 500%nat)
  end.

End Routes.

(** * Properties *)

Example repr_sample :
  py_repr (fun _ => "0.5")
    (VDict [("a", VList [VInt 1; VInt (-20); VStr "it's"; VNone]);
            ("b", VBool true)])
  = "{'a': [1, -20, " ++ String dquote ("it's" ++ String dquote ", None], 'b': True}").
Proof. vm_compute. reflexivity. Qed.

(** ** The simulation tiers *)

Section SimulationTiers.
Import Scorers.

Lemma simulation_tier_cases (c t : Z) :
  (c <= t /\ simulation_tier c t = 100%Q)%Z \/
  (t < c <= t * 2 /\ simulation_tier c t = 70%Q)%Z \/
  (t < c /\ t * 2 < c <= t * 3 /\ simulation_tier c t = 40%Q)%Z \/
  (t < c /\ t * 2 < c /\ t * 3 < c /\ simulation_tier c t = 10%Q)%Z.
Proof.
  unfold simulation_tier.
  destruct (Z.leb_spec c t); [left; split; [lia | reflexivity] |].
  destruct (Z.leb_spec c (t * 2)); [right; left; split; [lia | reflexivity] |].
  destruct (Z.leb_spec c (t * 3)).
  - right; right; left. repeat split; lia.
  - right; right; right. repeat split; lia.
Qed.

Lemma simulation_tier_count_antitone (c c' t : Z) :
  (c <= c')%Z -> simulation_tier c' t <= simulation_tier c t.
Proof.
  intros Hc.
  destruct (simulation_tier_cases c t) as [H | [H | [H | H]]];
    destruct (simulation_tier_cases c' t) as [H' | [H' | [H' | H']]];
    repeat match goal with
      | H : _ /\ _ |- _ => destruct H
      end;
    try lia;
    match goal with
    | E : simulation_tier c t = _, E' : simulation_tier c' t = _ |- _ =>
        rewrite E, E'; unfold Qle; simpl; lia
    end.
Qed.

Lemma simulation_tier_tolerance_monotone (c t t' : Z) :
  (t <= t')%Z -> simulation_tier c t <= simulation_tier c t'.
Proof.
  intros Ht.
  destruct (simulation_tier_cases c t) as [H | [H | [H | H]]];
    destruct (simulation_tier_cases c t') as [H' | [H' | [H' | H']]];
    repeat match goal with
      | H : _ /\ _ |- _ => destruct H
      end;
    try lia;
    match goal with
    | E : simulation_tier c t = _, E' : simulation_tier c t' = _ |- _ =>
        rewrite E, E'; unfold Qle; simpl; lia
    end.
Qed.

Lemma detect_simulation_bound (dumps : dict -> result string)
  (analysis : dict) (thresholds : Thresholds) (text : string) :
  dumps analysis = Ok text ->
  _detect_simulation_with_tolerance {| g_json := Some dumps |}
    analysis thresholds
  = Ok (simulation_tier (simulation_count (Text.lower text))
          (simulation_tolerance thresholds)).
Proof.
  intros H. unfold _detect_simulation_with_tolerance. simpl.
  rewrite H. reflexivity.
Qed.

Lemma simulation_count_nonneg (s : string) : (0 <= simulation_count s)%Z.
Proof.
  unfold simulation_count.
  assert (G : forall l n, (0 <= n)%Z ->
    (0 <= fold_left (fun n indicator =>
                       (n + Z.of_nat (Text.count s indicator))%Z) l n)%Z).
  { induction l as [| x l IH]; simpl; intros n Hn; [exact Hn |].
    apply IH. lia. }
  apply G. lia.
Qed.

End SimulationTiers.

(** C5, amended.  Once the serialised analysis is available, the simulation score is
    the tier of the phrase count against the tolerance: a count within the
    tolerance scores 100, within twice the tolerance 70, within three times
    the tolerance 40, and 10 beyond.  The tier never increases when the
    count grows and never decreases when the tolerance grows; 0 phrases at
    tolerance 5 score 100, 12 phrases at tolerance 5 score 40 (12 is within
    three times 5), 16 phrases at tolerance 5 score 10 and 12 phrases at
    tolerance 20 score 100. *)
Theorem simulation_score_tiers
  (dumps : dict -> result string) (analysis : dict) (thresholds : Thresholds)
  (text : string) (count count' tol tol' : Z) :
  dumps analysis = Ok text ->
  (count <= count')%Z ->
  (tol <= tol')%Z ->
  Scorers._detect_simulation_with_tolerance {| g_json := Some dumps |}
    analysis thresholds
  = Ok (Scorers.simulation_tier
          (Scorers.simulation_count (Text.lower text))
          (simulation_tolerance thresholds)) /\
  ((count <= tol)%Z -> Scorers.simulation_tier count tol = 100%Q) /\
  ((tol < count <= tol * 2)%Z -> Scorers.simulation_tier count tol = 70%Q) /\
  ((tol < count /\ tol * 2 < count <= tol * 3)%Z ->
   Scorers.simulation_tier count tol = 40%Q) /\
  ((tol < count /\ tol * 2 < count /\ tol * 3 < count)%Z ->
   Scorers.simulation_tier count tol = 10%Q) /\
  Scorers.simulation_tier count' tol <= Scorers.simulation_tier count tol /\
  Scorers.simulation_tier count tol <= Scorers.simulation_tier count tol' /\
  Scorers.simulation_tier 0 5 = 100%Q /\
  Scorers.simulation_tier 12 5 = 40%Q /\
  Scorers.simulation_tier 16 5 = 10%Q /\
  Scorers.simulation_tier 12 20 = 100%Q.
Proof.
  intros Hdumps Hcount Htol.
  split; [apply detect_simulation_bound; exact Hdumps |].
  pose proof (simulation_tier_cases count tol) as Hcases.
  repeat split.
  - intros. destruct Hcases as [H' | [H' | [H' | H']]]; intuition lia.
  - intros. destruct Hcases as [H' | [H' | [H' | H']]]; intuition lia.
  - intros. destruct Hcases as [H' | [H' | [H' | H']]]; intuition lia.
  - intros. destruct Hcases as [H' | [H' | [H' | H']]]; intuition lia.
  - apply simulation_tier_count_antitone; exact Hcount.
  - apply simulation_tier_tolerance_monotone; exact Htol.
Qed.

Lemma simulation_score_tiers_witness :
  Scorers._detect_simulation_with_tolerance
    {| g_json := Some (fun _ => Ok "{'x': 'TEMPLATE for N/A placeholder'}") |}
    [] (validation_levels MODERATE)
  = Ok 100%Q /\
  Scorers.simulation_tier 12 5 <= Scorers.simulation_tier 3 5 /\
  Scorers.simulation_tier 3 5 <= Scorers.simulation_tier 3 20.
Proof.
  destruct (simulation_score_tiers
              (fun _ => Ok "{'x': 'TEMPLATE for N/A placeholder'}")
              [] (validation_levels MODERATE)
              "{'x': 'TEMPLATE for N/A placeholder'}" 3 12 5 20
              eq_refl ltac:(lia) ltac:(lia))
    as (Hscore & _ & _ & _ & _ & Hcount & Htol & _).
  split; [| split].
  - rewrite Hscore. reflexivity.
  - exact Hcount.
  - exact Htol.
Defined.

(** C5, as stated: 12 occurrences at tolerance 5 would score 10.  The third
    tier reaches up to three times the tolerance, so they score 40. *)
Lemma simulation_12_at_5_is_not_10 :
  Scorers.simulation_tier 12 5 = 40%Q /\
  ~ (Scorers.simulation_tier 12 5 == 10)%Q.
Proof.
  split; [reflexivity |].
  vm_compute. discriminate.
Qed.

(** ** The research scorer *)

Section Research.
Import Scorers.

Lemma Qltb_true (a b : Q) : Py.Qltb a b = true <-> a < b.
Proof.
  unfold Py.Qltb. rewrite negb_true_iff.
  split; intros H.
  - apply Qnot_le_lt. intros Hle.
    apply Qle_bool_iff in Hle. congruence.
  - destruct (Qle_bool b a) eqn:E; [| reflexivity].
    apply Qle_bool_iff in E. apply Qle_not_lt in E. contradiction.
Qed.

Lemma Qltb_false (a b : Q) : Py.Qltb a b = false <-> b <= a.
Proof.
  unfold Py.Qltb. rewrite negb_false_iff. apply Qle_bool_iff.
Qed.

Lemma min_le_r (a b : Q) : Py.min a b <= b.
Proof.
  unfold Py.min. destruct (Py.Qltb b a) eqn:E.
  - apply Qle_refl.
  - apply Qltb_false in E. exact E.
Qed.

Lemma min_ge (a b c : Q) : c <= a -> c <= b -> c <= Py.min a b.
Proof.
  intros Ha Hb. unfold Py.min. destruct (Py.Qltb b a); assumption.
Qed.

(** A "scaled" block never lowers the score. *)
Lemma scaled_points_ge (x : Q) (threshold : Z) (score : Q) :
  score <= scaled_points x threshold score.
Proof.
  unfold scaled_points.
  destruct (Qle_bool (inject_Z threshold) x) eqn:E1; [lra |].
  destruct (Py.Qltb 0 x) eqn:E2; [| lra].
  apply Qltb_true in E2.
  assert (Hlt : x < inject_Z threshold).
  { apply Qnot_le_lt. intros Hle. apply Qle_bool_iff in Hle. congruence. }
  assert (Hq : 0 <= x / inject_Z threshold).
  { apply Qle_shift_div_l; lra. }
  assert (Hm : 0 <= x / inject_Z threshold * 30).
  { apply Qmult_le_0_compat; lra. }
  lra.
Qed.

Lemma research_absent (analysis : dict) (thresholds : Thresholds) :
  Py.truthy (Py.get analysis "pesquisa_web_massiva" (VDict [])) = false ->
  _validate_research_flexible analysis thresholds = Ok 20.
Proof.
  intros H. unfold _validate_research_flexible. rewrite H. reflexivity.
Qed.

End Research.

(** C10, as stated: the research score would never be below 20.  The scorer
    adds [qualidade_media / 100 * 20] without a lower bound, so a negative
    quality average takes the score below its base (here to 0); and a
    research section that is not a map makes the scorer raise instead of
    returning a score. *)
Lemma research_score_below_base :
  (exists s,
     Scorers._validate_research_flexible
       [("pesquisa_web_massiva",
          VDict [("estatisticas", VDict [("qualidade_media", VInt (-100))])])]
       (validation_levels STRICT) = Ok s /\ s == 0 /\ ~ 20 <= s) /\
  Scorers._validate_research_flexible
    [("pesquisa_web_massiva", VStr "sem dados")]
    (validation_levels STRICT) = Raise AttributeError.
Proof.
  split; [| reflexivity].
  eexists. split; [vm_compute; reflexivity |].
  split; [reflexivity |].
  intros H. vm_compute in H. apply H. reflexivity.
Qed.

(** C10, amended.  For every analysis and every profile: when the research
    section is absent or empty the score is exactly 20; when it is a map
    whose statistics (a map, if present) hold numbers (if present), the
    scorer returns a score that is at most 100 and, provided the quality
    average is not negative, at least 20. *)
Theorem research_score_floor (analysis : dict) (lvl : Level) :
  (Py.truthy (Py.get analysis "pesquisa_web_massiva" (VDict [])) = false ->
   Scorers._validate_research_flexible analysis (validation_levels lvl)
   = Ok 20) /\
  (forall (research stats : dict) (total_content unique_sources avg_quality : Q),
     Py.get analysis "pesquisa_web_massiva" (VDict []) = VDict research ->
     Py.get research "estatisticas" (VDict []) = VDict stats ->
     Py.num (Py.get stats "total_conteudo" (VInt 0)) = Ok total_content ->
     Py.num (Py.get stats "fontes_unicas" (VInt 0)) = Ok unique_sources ->
     Py.num (Py.get stats "qualidade_media" (VInt 0)) = Ok avg_quality ->
     exists score,
       Scorers._validate_research_flexible analysis (validation_levels lvl)
       = Ok score /\
       score <= 100 /\
       (0 <= avg_quality -> 20 <= score)).
Proof.
  split; [apply research_absent |].
  intros research stats total_content unique_sources avg_quality
    Hres Hstats Htc Hus Hq.
  unfold Scorers._validate_research_flexible.
  rewrite Hres.
  destruct (negb (Py.truthy (VDict research))) eqn:Etruthy.
  - exists 20. split; [reflexivity | split; [lra | intros _; lra]].
  - cbn [Py.get_attr rbind]. rewrite Hstats.
    cbn [Py.get_attr rbind]. rewrite Htc, Hus, Hq.
    cbn [rbind].
    eexists. split; [reflexivity |].
    split; [apply min_le_r |].
    intros Hq0.
    apply min_ge; [| lra].
    pose proof (scaled_points_ge total_content
                  (min_content_length (validation_levels lvl)) 20) as H1.
    pose proof (scaled_points_ge unique_sources
                  (min_sources (validation_levels lvl))
                  (Scorers.scaled_points total_content
                     (min_content_length (validation_levels lvl)) 20)) as H2.
    assert (H3 : 0 <= avg_quality / 100 * 20).
    { apply Qmult_le_0_compat; [| lra].
      apply Qle_shift_div_l; lra. }
    lra.
Qed.

Lemma research_score_floor_witness :
  Scorers._validate_research_flexible [] (validation_levels MODERATE) = Ok 20 /\
  exists score,
    Scorers._validate_research_flexible
      [("pesquisa_web_massiva",
         VDict [("estatisticas",
                  VDict [("total_conteudo", VInt 1000);
                         ("fontes_unicas", VInt 4);
                         ("qualidade_media", VFloat 50)])])]
      (validation_levels MODERATE) = Ok score /\
    score <= 100 /\ 20 <= score.
Proof.
  split.
  - apply (proj1 (research_score_floor [] MODERATE)). reflexivity.
  - destruct (proj2 (research_score_floor
                       [("pesquisa_web_massiva",
                          VDict [("estatisticas",
                                   VDict [("total_conteudo", VInt 1000);
                                          ("fontes_unicas", VInt 4);
                                          ("qualidade_media", VFloat 50)])])]
                       MODERATE)
                _ _ (inject_Z 1000) (inject_Z 4) 50
                eq_refl eq_refl eq_refl eq_refl eq_refl)
      as (score & Hscore & Hmax & Hmin).
    exists score. split; [exact Hscore |]. split; [exact Hmax |].
    apply Hmin. unfold Qle; simpl; lia.
Defined.

(** ** The PDF decision *)

(** C7, as stated: the decision would be false exactly when the avatar
    section is absent or the insights list is empty, and true otherwise.
    With an avatar and a null insights entry the function raises instead
    of returning a decision; and an avatar section that is present but
    empty is refused although insights are available. *)
Lemma pdf_decision_not_total :
  Validator.should_generate_pdf_flexible
    [("avatar_ultra_detalhado", VDict [("nome", VStr "Ana")]);
     ("insights_exclusivos", VNone)]
  = Raise TypeError /\
  Py.lookup
    [("avatar_ultra_detalhado", VDict []);
     ("insights_exclusivos", VList [VStr "primeiro insight"])]
    "avatar_ultra_detalhado" = Some (VDict []) /\
  Validator.should_generate_pdf_flexible
    [("avatar_ultra_detalhado", VDict []);
     ("insights_exclusivos", VList [VStr "primeiro insight"])]
  = Ok (false, "Avatar ausente - mínimo necessário para PDF").
Proof. repeat split. Qed.

(** C7, amended.  For every analysis whose insights entry, when present,
    has a length (a list, a string or a map), the function returns a
    decision; the decision is false exactly when the avatar entry is
    missing or empty (falsy) or the insights entry has length 0, and true
    otherwise.  Nothing else in the analysis is consulted. *)
Theorem pdf_decision (analysis : dict) (n : nat) :
  Py.len (Py.get analysis "insights_exclusivos" (VList [])) = Ok n ->
  exists (decision : bool) (why : string),
    Validator.should_generate_pdf_flexible analysis = Ok (decision, why) /\
    (decision = false <->
     Py.truthy (Py.get analysis "avatar_ultra_detalhado" VNone) = false \/
     n = 0%nat).
Proof.
  intros Hlen. unfold Validator.should_generate_pdf_flexible.
  destruct analysis as [| entry rest].
  - exists false, "Análise vazia". split; [reflexivity |].
    split; [left; reflexivity | reflexivity].
  - cbn [Py.truthy length Nat.eqb negb].
    destruct (Py.truthy (Py.get (entry :: rest) "avatar_ultra_detalhado" VNone))
      eqn:Eavatar; cbn [negb].
    + rewrite Hlen. cbn [rbind].
      destruct n as [| m]; cbn [Nat.ltb Nat.leb].
      * eexists _, _. split; [reflexivity |].
        split; [right; reflexivity | reflexivity].
      * eexists _, _. split; [reflexivity |].
        split; [discriminate | intros [H | H]; discriminate].
    + eexists _, _. split; [reflexivity |].
      split; [left; reflexivity | reflexivity].
Qed.

Lemma pdf_decision_witness :
  exists (decision : bool) (why : string),
    Validator.should_generate_pdf_flexible
      [("insights_exclusivos", VList [VStr "a"; VStr "b"]);
       ("avatar_ultra_detalhado", VDict [("nome", VStr "Ana")]);
       ("pesquisa_web_massiva", VNone)]
    = Ok (decision, why) /\
    (decision = false <->
     Py.truthy
       (Py.get
          [("insights_exclusivos", VList [VStr "a"; VStr "b"]);
           ("avatar_ultra_detalhado", VDict [("nome", VStr "Ana")]);
           ("pesquisa_web_massiva", VNone)]
          "avatar_ultra_detalhado" VNone) = false \/
     2%nat = 0%nat).
Proof.
  apply (pdf_decision
           [("insights_exclusivos", VList [VStr "a"; VStr "b"]);
            ("avatar_ultra_detalhado", VDict [("nome", VStr "Ana")]);
            ("pesquisa_web_massiva", VNone)] 2).
  reflexivity.
Defined.

(** ** Assessment at one level *)

Section Assessment.
Import Validator.

(** The state left by a run of the [try] block and its handler. *)
Lemma assess_cases (g : Globals) (analysis : dict) (lvl : Level) (ts : string) :
  let th := validation_levels lvl in
  (exists e, error_branch lvl ts e (assess g analysis lvl ts) /\
             (Scorers._validate_research_flexible analysis th = Raise e \/
              Scorers._validate_avatar_flexible analysis th = Raise e \/
              Scorers._validate_insights_flexible analysis th = Raise e \/
              Scorers._detect_simulation_with_tolerance g analysis th = Raise e))
  \/
  (exists s2 s3 s4 s5,
      Scorers._validate_research_flexible analysis th = Ok s2 /\
      Scorers._validate_avatar_flexible analysis th = Ok s3 /\
      Scorers._validate_insights_flexible analysis th = Ok s4 /\
      Scorers._detect_simulation_with_tolerance g analysis th = Ok s5 /\
      let s1 := Scorers._validate_structure_flexible analysis th in
      let q := mean [s1; s2; s3; s4; s5] in
      component_scores (assess g analysis lvl ts)
      = [("structure", s1); ("research", s2); ("avatar", s3);
         ("insights", s4); ("simulation", s5)] /\
      quality_score (assess g analysis lvl ts) = q /\
      valid (assess g analysis lvl ts) = Qle_bool (min_quality_score th) q /\
      level (assess g analysis lvl ts) = level_name lvl /\
      timestamp (assess g analysis lvl ts) = ts).
Proof.
  intros th. unfold assess. fold th.
  unfold scoring, Prog.try_except, Prog.bind, Prog.lift, Prog.ret, Prog.modify.
  destruct (Scorers._validate_research_flexible analysis th) as [s2 | e] eqn:E2;
    [| left; exists e; split; [repeat split | auto]].
  destruct (Scorers._validate_avatar_flexible analysis th) as [s3 | e] eqn:E3;
    [| left; exists e; split; [repeat split | auto]].
  destruct (Scorers._validate_insights_flexible analysis th) as [s4 | e] eqn:E4;
    [| left; exists e; split; [repeat split | auto]].
  destruct (Scorers._detect_simulation_with_tolerance g analysis th)
    as [s5 | e] eqn:E5;
    [| left; exists e; split; [repeat split | auto 6]].
  right. exists s2, s3, s4, s5.
  repeat (split; [reflexivity |]).
  cbn -[mean Qle_bool Scorers._validate_structure_flexible].
  destruct (Qle_bool _ _); repeat split.
Qed.

(** In the module as written the simulation scorer cannot be reached
    without a [NameError], so every assessment ends in the handler. *)
Lemma assess_module_error (analysis : dict) (lvl : Level) (ts : string) :
  exists e, error_branch lvl ts e (assess module_globals analysis lvl ts).
Proof.
  destruct (assess_cases module_globals analysis lvl ts)
    as [(e & H & _) | (s2 & s3 & s4 & s5 & _ & _ & _ & H & _)].
  - exists e. exact H.
  - discriminate H.
Qed.

Lemma min_quality_positive (lvl : Level) :
  Qle_bool (min_quality_score (validation_levels lvl)) 0 = false.
Proof. destruct lvl; reflexivity. Qed.

(** Validity is the comparison of the recorded quality score with the
    profile's minimum, also when scoring failed. *)
Lemma assess_valid (g : Globals) (analysis : dict) (lvl : Level) (ts : string) :
  valid (assess g analysis lvl ts)
  = Qle_bool (min_quality_score (validation_levels lvl))
      (quality_score (assess g analysis lvl ts)).
Proof.
  destruct (assess_cases g analysis lvl ts)
    as [(e & (Hv & _ & Hq & _) & _)
       | (s2 & s3 & s4 & s5 & _ & _ & _ & _ & _ & Hq & Hv & _)].
  - rewrite Hv, Hq. symmetry. apply min_quality_positive.
  - rewrite Hv, Hq. reflexivity.
Qed.

Lemma assess_valid_timestamp (g : Globals) (analysis : dict) (lvl : Level)
  (ts ts' : string) :
  valid (assess g analysis lvl ts) = valid (assess g analysis lvl ts').
Proof.
  destruct (assess_cases g analysis lvl ts)
    as [(e & (Hv & _) & He)
       | (s2 & s3 & s4 & s5 & E2 & E3 & E4 & E5 & _ & _ & Hv & _)];
    destruct (assess_cases g analysis lvl ts')
    as [(e' & (Hv' & _) & He')
       | (s2' & s3' & s4' & s5' & E2' & E3' & E4' & E5' & _ & _ & Hv' & _)].
  - congruence.
  - exfalso. destruct He as [H | [H | [H | H]]]; congruence.
  - exfalso. destruct He' as [H | [H | [H | H]]]; congruence.
  - rewrite Hv, Hv'.
    assert (s2 = s2') by congruence.
    assert (s3 = s3') by congruence.
    assert (s4 = s4') by congruence.
    assert (s5 = s5') by congruence.
    subst. reflexivity.
Qed.

Lemma level_met_valid (g : Globals) (analysis : dict) (lvl : Level) (ts : string) :
  valid (assess g analysis lvl ts) = level_met g analysis lvl.
Proof.
  unfold level_met. rewrite <- assess_valid. apply assess_valid_timestamp.
Qed.

Lemma level_met_quality (g : Globals) (analysis : dict) (lvl : Level)
  (ts : string) :
  Qle_bool (min_quality_score (validation_levels lvl))
    (quality_score (assess g analysis lvl ts))
  = level_met g analysis lvl.
Proof. rewrite <- assess_valid. apply level_met_valid. Qed.

Lemma level_met_module (analysis : dict) (lvl : Level) :
  level_met module_globals analysis lvl = false.
Proof.
  rewrite <- (level_met_valid _ _ _ "").
  destruct (assess_module_error analysis lvl "") as (e & Hv & _).
  exact Hv.
Qed.

End Assessment.

(** ** The loop over the levels *)

Section Loop.
Import Validator.
Local Open Scope list_scope.

Variable g : Globals.
Variable env : Env.
Variable analysis : dict.
Variable session_id : option string.

Lemma filed_nil (w w' : World) : journal w' = journal w -> filed w w' [].
Proof. unfold filed. intros ->. rewrite app_nil_r. reflexivity. Qed.

Lemma filed_step (w w1 w' : World) (c : call) (names : list string) :
  journal w1 = journal w ++ [c] ->
  filed w1 w' names ->
  filed w w' (call_nome c :: names).
Proof.
  unfold filed. intros H1 H2. rewrite H2, H1, map_app, <- app_assoc.
  reflexivity.
Qed.

(** The three ways the loop can end: it returns the approved assessment
    of the first level met, it runs through all levels, or the
    collaborator raises while a rejected attempt is filed. *)
Lemma try_levels_spec (levels : list Level) :
  forall w r w',
    try_levels g env analysis session_id levels w = (r, w') ->
    match r with
    | Ok (Some v) =>
        exists pre lvl post ts,
          levels = pre ++ lvl :: post /\
          Forall (rejected g analysis) pre /\
          level_met g analysis lvl = true /\
          v = with_approval (level_name lvl) (_get_level_recommendation lvl)
                (assess g analysis lvl ts) /\
          filed w w' (map attempt_nome pre)
    | Ok None =>
        Forall (rejected g analysis) levels /\ filed w w' (map attempt_nome levels)
    | Raise e =>
        exists pre lvl post,
          levels = pre ++ lvl :: post /\
          Forall (rejected g analysis) (pre ++ [lvl]) /\
          filed w w' (map attempt_nome (pre ++ [lvl]))
    end.
Proof.
  induction levels as [| lvl rest IH]; intros w r w' Hrun.
  - cbn in Hrun. injection Hrun as <- <-.
    split; [constructor | apply filed_nil; reflexivity].
  - cbn [try_levels] in Hrun.
    unfold Prog.bind, _validate_at_level, now, Prog.ret in Hrun.
    cbn [Prog.bind] in Hrun.
    set (ts := clock env (ticks w)) in *.
    pose proof (level_met_valid g analysis lvl ts) as Hmet.
    destruct (valid (assess g analysis lvl ts)) eqn:Ev.
    + injection Hrun as <- <-.
      exists [], lvl, rest, ts.
      repeat split; auto. apply filed_nil. reflexivity.
    + unfold salvar_etapa, invoke in Hrun.
      cbn [journal ticks] in Hrun.
      match type of Hrun with
      | context [collaborator env ?j ?c] =>
          destruct (collaborator env j c) as [e |] eqn:Ec;
          set (c0 := c) in *
      end.
      * injection Hrun as <- <-.
        exists [], lvl, rest. cbn [app map].
        repeat split.
        -- constructor; [symmetry; exact Hmet | constructor].
        -- unfold filed. cbn [journal]. rewrite map_app. reflexivity.
      * match type of Hrun with
        | try_levels _ _ _ _ _ ?w1 = _ =>
            specialize (IH w1 r w' Hrun);
            assert (Hj : journal w1 = journal w ++ [c0]) by reflexivity;
            set (w1' := w1) in *
        end.
        assert (Hrej : rejected g analysis lvl) by (symmetry; exact Hmet).
        destruct r as [[v |] | e].
        -- destruct IH as (pre & l & post & ts' & -> & Hpre & Hl & Hv & Hf).
           exists (lvl :: pre), l, post, ts'.
           repeat split; auto.
           apply (filed_step w w1' w' c0); assumption.
        -- destruct IH as (Hall & Hf).
           split; [constructor; assumption |].
           apply (filed_step w w1' w' c0); assumption.
        -- destruct IH as (pre & l & post & -> & Hpre & Hf).
           exists (lvl :: pre), l, post.
           repeat split; auto.
           ++ cbn [app]. constructor; assumption.
           ++ apply (filed_step w w1' w' c0); assumption.
Qed.

(** [_create_emergency_validation] returns the emergency verdict or
    passes on what the collaborator raised. *)
Lemma emergency_spec (w : World) :
  match collaborator env (journal w)
          (salvar_etapa_call "validacao_emergencia"
             (Final (emergency_verdict (clock env (ticks w))))
             "analise_completa") with
  | None =>
      exists w', _create_emergency_validation env analysis session_id w
                 = (Ok (emergency_verdict (clock env (ticks w))), w')
  | Some e =>
      exists w', _create_emergency_validation env analysis session_id w
                 = (Raise e, w')
  end.
Proof.
  unfold _create_emergency_validation, Prog.bind, now, salvar_etapa, invoke,
    Prog.ret.
  cbn [journal ticks].
  destruct (collaborator env (journal w) _); eexists; reflexivity.
Qed.

Lemma emergency_returns (w : World) (r : result Verdict) (w' : World) :
  _create_emergency_validation env analysis session_id w = (r, w') ->
  match r with
  | Ok v => exists ts, v = emergency_verdict ts
  | Raise _ => True
  end.
Proof.
  intros H. pose proof (emergency_spec w) as Hs.
  destruct (collaborator env (journal w) _); destruct Hs as (w1 & Hs);
    rewrite Hs in H; injection H as <- <-; [exact I | eexists; reflexivity].
Qed.

(** Whatever happens, a verdict that [validate_with_progressive_tolerance]
    returns is the approved assessment the loop returned, or the emergency
    verdict. *)
Lemma validate_returns (w : World) (v : Verdict) (w' : World) :
  validate_with_progressive_tolerance g env analysis session_id w
  = (Ok v, w') ->
  try_levels g env analysis session_id validation_order w = (Ok (Some v), w')
  \/ exists ts, v = emergency_verdict ts.
Proof.
  unfold validate_with_progressive_tolerance, Prog.try_except.
  unfold Prog.bind at 1.
  destruct (try_levels g env analysis session_id validation_order w)
    as [[[v0 |] | e0] w0] eqn:Eloop.
  - unfold Prog.ret. intros H. injection H as <- <-. left. reflexivity.
  - destruct (_create_emergency_validation env analysis session_id w0)
      as [[v1 | e1] w1] eqn:E1.
    + intros H. injection H as <- <-. right.
      exact (emergency_returns _ _ _ E1).
    + unfold Prog.bind.
      destruct (salvar_erro env "validacao_critica" e1 session_id w1)
        as [[[] | e2] w2]; [| discriminate].
      intros H. right. exact (emergency_returns _ _ _ H).
  - unfold Prog.bind.
    destruct (salvar_erro env "validacao_critica" e0 session_id w0)
      as [[[] | e2] w2]; [| discriminate].
    intros H. right. exact (emergency_returns _ _ _ H).
Qed.

End Loop.

(** ** The whole validation *)

Section Validation.
Import Validator.
Local Open Scope list_scope.

Lemma try_levels_quiet (g : Globals) (env : Env) (analysis : dict)
  (session_id : option string) (levels : list Level) :
  quiet env ->
  forall w, exists o w',
    try_levels g env analysis session_id levels w = (Ok o, w').
Proof.
  intros Hq. induction levels as [| lvl rest IH]; intros w.
  - eexists _, _. reflexivity.
  - cbn [try_levels].
    unfold Prog.bind, _validate_at_level, now, Prog.ret.
    cbn [Prog.bind].
    destruct (valid (assess g analysis lvl (clock env (ticks w)))).
    + eexists _, _. reflexivity.
    + unfold salvar_etapa, invoke. rewrite Hq. apply IH.
Qed.

Lemma validate_module_returns (env : Env) (analysis : dict)
  (session_id : option string) (w : World) (v : Verdict) (w' : World) :
  validate_with_progressive_tolerance module_globals env analysis session_id w
  = (Ok v, w') ->
  exists ts, v = emergency_verdict ts.
Proof.
  intros H. apply validate_returns in H. destruct H as [H | H]; [| exact H].
  apply try_levels_spec in H.
  destruct H as (pre & lvl & post & ts & _ & _ & Hmet & _).
  rewrite level_met_module in Hmet. discriminate.
Qed.

(** When error reports and the emergency record are accepted, the call
    returns a verdict, whatever the namespace and the analysis. *)
Lemma validate_total (g : Globals) (env : Env) (analysis : dict)
  (session_id : option string) (w : World) :
  emergency_path_ok env ->
  exists v w',
    validate_with_progressive_tolerance g env analysis session_id w
    = (Ok v, w').
Proof.
  intros [Hsave Herr].
  assert (Hem : forall w0, exists v w',
             _create_emergency_validation env analysis session_id w0
             = (Ok v, w')).
  { intros w0. pose proof (emergency_spec env analysis session_id w0) as Hs.
    rewrite Hsave in Hs. destruct Hs as (w1 & Hs). eexists _, _. exact Hs. }
  unfold validate_with_progressive_tolerance, Prog.try_except.
  unfold Prog.bind at 1.
  destruct (try_levels g env analysis session_id validation_order w)
    as [[[v0 |] | e0] w0].
  - eexists _, _. reflexivity.
  - destruct (Hem w0) as (v1 & w1 & ->). eexists _, _. reflexivity.
  - unfold Prog.bind, salvar_erro, invoke. rewrite Herr. apply Hem.
Qed.

Lemma validate_module_total (env : Env) (analysis : dict)
  (session_id : option string) (w : World) :
  emergency_path_ok env ->
  exists ts w',
    validate_with_progressive_tolerance module_globals env analysis session_id w
    = (Ok (emergency_verdict ts), w').
Proof.
  intros Hok.
  destruct (validate_total module_globals env analysis session_id w Hok)
    as (v & w' & H).
  destruct (validate_module_returns _ _ _ _ _ _ H) as (ts & ->).
  exists ts, w'. exact H.
Qed.

Lemma quiet_emergency_path_ok (env : Env) : quiet env -> emergency_path_ok env.
Proof. intros H. split; intros; apply H. Qed.

End Validation.

Section FirstLevelMet.
Import Validator.
Local Open Scope list_scope.

Lemma assess_level (g : Globals) (analysis : dict) (lvl : Level) (ts : string) :
  level (assess g analysis lvl ts) = level_name lvl.
Proof.
  destruct (assess_cases g analysis lvl ts)
    as [(e & (_ & H & _) & _)
       | (s2 & s3 & s4 & s5 & _ & _ & _ & _ & _ & _ & _ & H & _)];
    exact H.
Qed.

Lemma emergency_filed (env : Env) (analysis : dict)
  (session_id : option string) (w w' : World) (r : result Verdict) :
  _create_emergency_validation env analysis session_id w = (r, w') ->
  filed w w' ["validacao_emergencia"].
Proof.
  unfold _create_emergency_validation, Prog.bind, now, salvar_etapa, invoke,
    Prog.ret.
  cbn [journal ticks].
  destruct (collaborator env (journal w) _); intros H; injection H as <- <-;
    unfold filed; cbn [journal]; rewrite map_app; reflexivity.
Qed.

Lemma filed_trans (w w1 w2 : World) (a b : list string) :
  filed w w1 a -> filed w1 w2 b -> filed w w2 (a ++ b).
Proof.
  unfold filed. intros H1 H2. rewrite H2, H1, app_assoc. reflexivity.
Qed.

End FirstLevelMet.

(** C1.  The levels are assessed in the order STRICT, MODERATE, FLEXIBLE,
    EMERGENCY.  Whenever the call returns a verdict whose level is not the
    emergency override, that level is the first one in this order whose
    minimum quality score is reached by the quality score of its assessment:
    every earlier level was rejected and filed as a rejected attempt, in
    order, and no later level was assessed.  When the collaborator never
    raises the call returns, either with the first level met or, when no
    level is met, with the emergency override after four filed attempts. *)
Theorem validate_first_level_met
  (g : Globals) (env : Env) (analysis : dict) (session_id : option string)
  (w : World) :
  (forall v w',
     Validator.validate_with_progressive_tolerance g env analysis session_id w
     = (Ok v, w') ->
     level v <> "EMERGENCY_OVERRIDE" ->
     exists pre lvl post,
       Validator.validation_order = (pre ++ lvl :: post)%list /\
       Forall (rejected g analysis) pre /\
       level_met g analysis lvl = true /\
       level v = level_name lvl /\
       validation_level v = Some (level_name lvl) /\
       valid v = true /\
       Qle_bool (min_quality_score (validation_levels lvl)) (quality_score v)
       = true /\
       filed w w' (map attempt_nome pre)) /\
  (quiet env ->
   exists v w',
     Validator.validate_with_progressive_tolerance g env analysis session_id w
     = (Ok v, w') /\
     ((exists pre lvl post,
         Validator.validation_order = (pre ++ lvl :: post)%list /\
         Forall (rejected g analysis) pre /\
         level_met g analysis lvl = true /\
         level v = level_name lvl /\
         filed w w' (map attempt_nome pre)) \/
      (Forall (rejected g analysis) Validator.validation_order /\
       level v = "EMERGENCY_OVERRIDE" /\
       filed w w' (map attempt_nome Validator.validation_order
                     ++ ["validacao_emergencia"])%list))).
Proof.
  split.
  - intros v w' Hrun Hlevel.
    apply validate_returns in Hrun.
    destruct Hrun as [Hloop | (ts & ->)]; [| exfalso; apply Hlevel; reflexivity].
    apply try_levels_spec in Hloop.
    destruct Hloop as (pre & lvl & post & ts & Horder & Hpre & Hmet & -> & Hf).
    exists pre, lvl, post.
    cbn [level validation_level valid quality_score with_approval].
    rewrite assess_level, level_met_valid, level_met_quality.
    repeat split; assumption.
  - intros Hq.
    unfold Validator.validate_with_progressive_tolerance, Prog.try_except.
    unfold Prog.bind at 1.
    destruct (try_levels_quiet g env analysis session_id
                Validator.validation_order Hq w) as (o & w0 & Hloop).
    rewrite Hloop.
    apply try_levels_spec in Hloop.
    destruct o as [v0 |].
    + destruct Hloop as (pre & lvl & post & ts & Horder & Hpre & Hmet & -> & Hf).
      eexists _, _. split; [reflexivity |].
      left. exists pre, lvl, post.
      cbn [level with_approval]. rewrite assess_level.
      repeat split; assumption.
    + destruct Hloop as (Hall & Hf).
      pose proof (emergency_spec env analysis session_id w0) as Hs.
      rewrite Hq in Hs. destruct Hs as (w1 & Hs).
      rewrite Hs. eexists _, _. split; [reflexivity |].
      right. repeat split; [exact Hall |].
      apply (filed_trans w w0 w1); [exact Hf |].
      exact (emergency_filed _ _ _ _ _ _ Hs).
Qed.

Lemma validate_first_level_met_witness :
  exists v w',
    Validator.validate_with_progressive_tolerance json_bound env_quiet
      sample_analysis None start = (Ok v, w') /\
    level v = "MODERATE" /\
    exists pre lvl post,
      Validator.validation_order = (pre ++ lvl :: post)%list /\
      Forall (rejected json_bound sample_analysis) pre /\
      level_met json_bound sample_analysis lvl = true /\
      level v = level_name lvl /\
      validation_level v = Some (level_name lvl) /\
      valid v = true /\
      Qle_bool (min_quality_score (validation_levels lvl)) (quality_score v)
      = true /\
      filed start w' (map attempt_nome pre).
Proof.
  destruct (Validator.validate_with_progressive_tolerance json_bound env_quiet
              sample_analysis None start) as [r w'] eqn:Hrun.
  assert (Hlevel : match r with
                   | Ok v => level v = "MODERATE"
                   | Raise _ => False
                   end).
  { vm_compute in Hrun. injection Hrun as <- _. reflexivity. }
  destruct r as [v | e]; [| contradiction].
  exists v, w'. split; [reflexivity |]. split; [exact Hlevel |].
  apply (proj1 (validate_first_level_met json_bound env_quiet sample_analysis
                  None start) v w' Hrun).
  rewrite Hlevel. discriminate.
Defined.

(** C9.  In the module as written the name [json] is unbound, so the
    simulation scorer raises a [NameError] for every analysis and every
    profile, and every assessment ends in the error branch of
    [_validate_at_level] (not valid, quality score left at 0, one error
    recorded).  Consequently a verdict returned by the validation is always
    the emergency override, never the verdict of a profile; and the call
    does return it whenever the collaborator accepts error reports and the
    emergency record. *)
Theorem validate_always_emergency
  (env : Env) (analysis : dict) (session_id : option string) (w : World) :
  (forall lvl,
     Scorers._detect_simulation_with_tolerance module_globals analysis
       (validation_levels lvl) = Raise (NameError "json")) /\
  (forall lvl ts,
     exists e,
       error_branch lvl ts e (Validator.assess module_globals analysis lvl ts)) /\
  (forall v w',
     Validator.validate_with_progressive_tolerance module_globals env analysis
       session_id w = (Ok v, w') ->
     level v = "EMERGENCY_OVERRIDE" /\ exists ts, v = Validator.emergency_verdict ts) /\
  (emergency_path_ok env ->
   exists ts w',
     Validator.validate_with_progressive_tolerance module_globals env analysis
       session_id w = (Ok (Validator.emergency_verdict ts), w')).
Proof.
  split; [reflexivity |].
  split; [intros lvl ts; apply assess_module_error |].
  split.
  - intros v w' H.
    destruct (validate_module_returns _ _ _ _ _ _ H) as (ts & ->).
    split; [reflexivity | exists ts; reflexivity].
  - apply validate_module_total.
Qed.

Lemma validate_always_emergency_witness :
  (forall v w',
     Validator.validate_with_progressive_tolerance module_globals
       env_attempt_save_fails sample_analysis (Some "sessao-1") start
     = (Ok v, w') ->
     level v = "EMERGENCY_OVERRIDE" /\ exists ts, v = Validator.emergency_verdict ts) /\
  exists ts w',
    Validator.validate_with_progressive_tolerance module_globals
      env_attempt_save_fails sample_analysis (Some "sessao-1") start
    = (Ok (Validator.emergency_verdict ts), w').
Proof.
  destruct (validate_always_emergency env_attempt_save_fails sample_analysis
              (Some "sessao-1") start) as (_ & _ & Hret & Htotal).
  split; [exact Hret |].
  apply Htotal. split; intros; reflexivity.
Defined.

(** C4.  On the empty map, a verdict returned by the validation is valid,
    has level EMERGENCY_OVERRIDE and quality score 25.0, with the five
    component scores at 25.0; the call returns it whenever the collaborator
    accepts error reports and the emergency record. *)
Theorem empty_analysis_emergency
  (env : Env) (session_id : option string) (w : World) :
  (forall v w',
     Validator.validate_with_progressive_tolerance module_globals env []
       session_id w = (Ok v, w') ->
     valid v = true /\
     level v = "EMERGENCY_OVERRIDE" /\
     quality_score v = 25%Q /\
     component_scores v
     = [("structure", 25%Q); ("research", 25%Q); ("avatar", 25%Q);
        ("insights", 25%Q); ("simulation", 25%Q)]) /\
  (emergency_path_ok env ->
   exists v w',
     Validator.validate_with_progressive_tolerance module_globals env []
       session_id w = (Ok v, w') /\
     valid v = true /\
     level v = "EMERGENCY_OVERRIDE" /\
     quality_score v = 25%Q).
Proof.
  split.
  - intros v w' H.
    destruct (validate_module_returns _ _ _ _ _ _ H) as (ts & ->).
    repeat split.
  - intros Hok.
    destruct (validate_module_total env [] session_id w Hok) as (ts & w' & H).
    exists (Validator.emergency_verdict ts), w'.
    repeat split. exact H.
Qed.

Lemma empty_analysis_emergency_witness :
  exists v w',
    Validator.validate_with_progressive_tolerance module_globals env_quiet []
      None start = (Ok v, w') /\
    valid v = true /\
    level v = "EMERGENCY_OVERRIDE" /\
    quality_score v = 25%Q.
Proof.
  apply (proj2 (empty_analysis_emergency env_quiet None start)).
  split; intros; reflexivity.
Defined.

(** C3.  In every verdict returned by the validation, and in every verdict
    returned by the forced pass, the component scores are the five named
    ones (structure, research, avatar, insights, simulation), each within
    [0, 100], and the quality score is their arithmetic mean and lies
    within [0, 100]. *)
Theorem verdict_scores_well_formed
  (env : Env) (analysis : dict) (session_id : option string) (reason : string)
  (w : World) (v : Verdict) (w' : World) :
  Validator.validate_with_progressive_tolerance module_globals env analysis
    session_id w = (Ok v, w') \/
  Validator.force_validation_pass env analysis reason w = (Ok v, w') ->
  five_components v /\
  Forall (fun entry => 0 <= snd entry /\ snd entry <= 100) (component_scores v) /\
  quality_score v == Validator.mean (map snd (component_scores v)) /\
  0 <= quality_score v /\ quality_score v <= 100.
Proof.
  intros [H | H].
  - destruct (validate_module_returns _ _ _ _ _ _ H) as (ts & ->).
    split; [reflexivity |].
    split; [repeat constructor; cbn; unfold Qle; cbn; lia |].
    split; [reflexivity |].
    split; unfold Qle; cbn; lia.
  - unfold Validator.force_validation_pass, Prog.bind, now, salvar_etapa,
      invoke, Prog.ret in H.
    cbn [journal ticks] in H.
    destruct (collaborator env (journal w) _); [discriminate |].
    injection H as <- _.
    split; [reflexivity |].
    split; [repeat constructor; cbn; unfold Qle; cbn; lia |].
    split; [reflexivity |].
    split; unfold Qle; cbn; lia.
Qed.

Lemma verdict_scores_well_formed_witness :
  exists v,
    fst (Validator.validate_with_progressive_tolerance module_globals env_quiet
           sample_analysis None start) = Ok v /\
    five_components v /\
    Forall (fun entry => 0 <= snd entry /\ snd entry <= 100) (component_scores v) /\
    quality_score v == Validator.mean (map snd (component_scores v)) /\
    0 <= quality_score v /\ quality_score v <= 100.
Proof.
  destruct (Validator.validate_with_progressive_tolerance module_globals
              env_quiet sample_analysis None start) as [r w'] eqn:Hrun.
  assert (Hok : match r with Ok _ => True | Raise _ => False end).
  { vm_compute in Hrun. injection Hrun as <- _. exact I. }
  destruct r as [v | e]; [| contradiction].
  exists v. split; [reflexivity |].
  apply (verdict_scores_well_formed env_quiet sample_analysis None "" start v w').
  left. exact Hrun.
Defined.

(** ** Failures *)

(** A failure inside the scoring of one profile never leaves
    [_validate_at_level]: the call returns the assessment, which records the
    failure as a rejection. *)
Lemma validate_at_level_total
  (g : Globals) (env : Env) (analysis : dict) (lvl : Level)
  (session_id : option string) (w : World) :
  exists ts w',
    Validator._validate_at_level g env analysis lvl session_id w
    = (Ok (Validator.assess g analysis lvl ts), w').
Proof. eexists _, _. reflexivity. Qed.

(** C2, at the failing input: the empty analysis, with a collaborator that
    cannot store the emergency record.  The four rejected attempts are
    filed, the emergency record is refused inside the [try] block, the
    handler reports the error and builds the emergency verdict again, and
    the second refusal leaves the call as an exception: no verdict is
    returned. *)
Theorem validate_raises_when_emergency_save_fails :
  fst (Validator.validate_with_progressive_tolerance module_globals
         env_emergency_save_fails [] None start)
  = Raise (CollaboratorError "disk full") /\
  map call_nome
    (journal (snd (Validator.validate_with_progressive_tolerance module_globals
                     env_emergency_save_fails [] None start)))
  = ["validacao_tentativa_strict"; "validacao_tentativa_moderate";
     "validacao_tentativa_flexible"; "validacao_tentativa_emergency";
     "validacao_emergencia"; "validacao_critica"; "validacao_emergencia"].
Proof. split; vm_compute; reflexivity. Qed.

(** C8, at the failing input: the empty analysis.  With a collaborator that
    always returns the call returns the emergency verdict; with one that
    refuses only the records of rejected attempts it returns the same
    verdict; with one that raises on every call the call raises and returns
    no verdict. *)
Theorem collaborator_failure_reaches_caller :
  fst (Validator.validate_with_progressive_tolerance module_globals
         env_quiet [] None start)
  = Ok (Validator.emergency_verdict "2025-01-01T00:00:00") /\
  fst (Validator.validate_with_progressive_tolerance module_globals
         env_attempt_save_fails [] None start)
  = Ok (Validator.emergency_verdict "2025-01-01T00:00:00") /\
  fst (Validator.validate_with_progressive_tolerance module_globals
         env_all_fail [] None start)
  = Raise (CollaboratorError "disk full").
Proof. repeat split; vm_compute; reflexivity. Qed.

(** ** Text lemmas *)

Section TextFacts.
Import Text.

Lemma sapp_assoc (a b c : string) : (a ++ b) ++ c = a ++ b ++ c.
Proof. induction a as [| x a IH]; cbn; [reflexivity | now rewrite IH]. Qed.

Lemma sapp_nil_r (a : string) : a ++ "" = a.
Proof. induction a as [| x a IH]; cbn; [reflexivity | now rewrite IH]. Qed.

Lemma smap_app (f : ascii -> ascii) (a b : string) :
  smap f (a ++ b) = smap f a ++ smap f b.
Proof. induction a as [| x a IH]; cbn; [reflexivity | now rewrite IH]. Qed.

(** A split of the image of [smap] comes from a split of its argument. *)
Lemma smap_split (f : ascii -> ascii) (s a b : string) :
  smap f s = a ++ b ->
  exists a' b', s = a' ++ b' /\ smap f a' = a /\ smap f b' = b.
Proof.
  revert s. induction a as [| x a IH]; intros s H.
  - exists "", s. auto.
  - destruct s as [| c s]; [discriminate |].
    cbn in H. injection H as Hc Hs.
    destruct (IH s Hs) as (a' & b' & -> & Ha & Hb).
    exists (String c a'), b'. cbn. rewrite Hc, Ha. auto.
Qed.

Lemma prefixb_spec (p s : string) :
  prefixb p s = true <-> exists r, s = p ++ r.
Proof.
  revert s. induction p as [| a p IH]; intros s; cbn.
  - split; [intros _; exists s; reflexivity | reflexivity].
  - destruct s as [| b s].
    + split; [discriminate | intros (r & H); discriminate].
    + rewrite andb_true_iff, Ascii.eqb_eq, IH. split.
      * intros (-> & r & ->). exists r. reflexivity.
      * intros (r & H). injection H as -> ->. split; [reflexivity | eauto].
Qed.

Lemma contains_spec (needle hay : string) :
  contains needle hay = true <-> exists a b, hay = a ++ needle ++ b.
Proof.
  induction hay as [| c hay IH].
  - cbn. rewrite orb_false_r, prefixb_spec. split.
    + intros (r & H). exists "", r. exact H.
    + intros (a & b & H). destruct a; [exists b; exact H | discriminate].
  - cbn [contains]. rewrite orb_true_iff, prefixb_spec, IH. split.
    + intros [(r & H) | (a & b & H)].
      * exists "", r. exact H.
      * exists (String c a), b. cbn. now rewrite H.
    + intros (a & b & H). destruct a as [| x a].
      * left. exists b. exact H.
      * right. cbn in H. injection H as _ H. eauto.
Qed.

(** What a part contains, the whole contains. *)
Lemma contains_inside (needle a x b : string) :
  contains needle x = true -> contains needle (a ++ x ++ b) = true.
Proof.
  rewrite !contains_spec. intros (p & q & ->).
  exists (a ++ p), (q ++ b). now rewrite !sapp_assoc.
Qed.

Lemma join_member (sep x : string) (parts : list string) :
  In x parts -> exists a b, join sep parts = a ++ x ++ b.
Proof.
  induction parts as [| p rest IH]; [contradiction |].
  intros [-> | Hin].
  - destruct rest as [| q rest'].
    + exists "", "". cbn. now rewrite sapp_nil_r.
    + exists "", (sep ++ join sep (q :: rest')). reflexivity.
  - destruct (IH Hin) as (a & b & Hj).
    destruct rest as [| q rest']; [contradiction |].
    exists (p ++ sep ++ a), b.
    change (join sep (p :: q :: rest')) with (p ++ sep ++ join sep (q :: rest')).
    rewrite Hj. now rewrite !sapp_assoc.
Qed.

Lemma upper_char_idem (c : ascii) : upper_char (upper_char c) = upper_char c.
Proof.
  destruct c as [[] [] [] [] [] [] [] []]; vm_compute; reflexivity.
Qed.

Lemma upper_lower_char (c : ascii) : upper_char (lower_char c) = upper_char c.
Proof.
  destruct c as [[] [] [] [] [] [] [] []]; vm_compute; reflexivity.
Qed.

Lemma upper_idem (s : string) : upper (upper s) = upper s.
Proof.
  unfold upper. induction s as [| c s IH]; cbn; [reflexivity |].
  now rewrite upper_char_idem, IH.
Qed.

Lemma upper_lower (s : string) : upper (lower s) = upper s.
Proof.
  unfold upper, lower. induction s as [| c s IH]; cbn; [reflexivity |].
  now rewrite upper_lower_char, IH.
Qed.

End TextFacts.

(** ** Flagged text *)

Section Flagged.
Import Text Cleaner.

Lemma flagged_spec (text : string) :
  flagged text = true <->
  exists indicator,
    In indicator invalid_indicators /\
    contains indicator (upper text) = true.
Proof. unfold flagged. apply existsb_exists. Qed.

(** A text that has a flagged part is flagged. *)
Lemma flagged_inside (a x b : string) :
  flagged x = true -> flagged (a ++ x ++ b) = true.
Proof.
  rewrite !flagged_spec. intros (ind & Hin & Hc).
  exists ind. split; [exact Hin |].
  unfold upper. rewrite !smap_app. apply contains_inside. exact Hc.
Qed.

Lemma clear_inside (a x b : string) :
  flagged (a ++ x ++ b) = false -> flagged x = false.
Proof.
  intros H. destruct (flagged x) eqn:E; [| reflexivity].
  rewrite (flagged_inside a x b E) in H. discriminate.
Qed.

(** Matching ignores the case of the text. *)
Lemma flagged_upper (text : string) : flagged (upper text) = flagged text.
Proof. unfold flagged. now rewrite upper_idem. Qed.

Lemma flagged_lower (text : string) : flagged (lower text) = flagged text.
Proof. unfold flagged. now rewrite upper_lower. Qed.

Lemma indicators_marker_chars (indicator : string) :
  In indicator invalid_indicators -> all_chars marker_char indicator = true.
Proof.
  intros [<- | [<- | [<- | []]]]; reflexivity.
Qed.

(** [repr] writes the characters of an indicator as they are. *)
Lemma marker_char_plain (c : ascii) :
  marker_char (upper_char c) = true ->
  escape_char squote c = String c "" /\ escape_char dquote c = String c "".
Proof.
  destruct c as [[] [] [] [] [] [] [] []]; vm_compute;
    intros H; try discriminate H; split; reflexivity.
Qed.

Lemma upper_marker_chars (s : string) :
  all_chars marker_char (upper s) = true ->
  all_chars (fun c => marker_char (upper_char c)) s = true.
Proof.
  unfold upper. induction s as [| c s IH]; cbn; [reflexivity |].
  rewrite !andb_true_iff. intros (Hc & Hs). split; [exact Hc | exact (IH Hs)].
Qed.

Lemma escape_plain (q : ascii) (s : string) :
  q = squote \/ q = dquote ->
  all_chars (fun c => marker_char (upper_char c)) s = true ->
  escape q s = s.
Proof.
  intros Hq. induction s as [| c s IH]; cbn; [reflexivity |].
  rewrite andb_true_iff. intros (Hc & Hs).
  destruct (marker_char_plain c Hc) as (H1 & H2).
  rewrite (IH Hs).
  destruct Hq as [-> | ->]; [rewrite H1 | rewrite H2]; reflexivity.
Qed.

Lemma escape_app (q : ascii) (a b : string) :
  escape q (a ++ b) = escape q a ++ escape q b.
Proof.
  induction a as [| c a IH]; cbn; [reflexivity |].
  now rewrite IH, sapp_assoc.
Qed.

Lemma quote_for_cases (s : string) :
  quote_for s = squote \/ quote_for s = dquote.
Proof. unfold quote_for. destruct (_ && _); auto. Qed.

(** The [repr] of a flagged string is flagged. *)
Lemma flagged_repr_str (s : string) :
  flagged s = true -> flagged (repr_str s) = true.
Proof.
  rewrite !flagged_spec. intros (ind & Hin & Hc).
  exists ind. split; [exact Hin |].
  apply contains_spec in Hc. destruct Hc as (a & b & Hs).
  apply smap_split in Hs. destruct Hs as (a' & r' & -> & Ha & Hr).
  apply smap_split in Hr. destruct Hr as (m' & b' & -> & Hm & Hb).
  unfold repr_str.
  set (q := quote_for (a' ++ m' ++ b')).
  assert (Hq : q = squote \/ q = dquote) by apply quote_for_cases.
  rewrite !escape_app.
  rewrite (escape_plain q m' Hq).
  2:{ apply upper_marker_chars. unfold upper. rewrite Hm.
      apply indicators_marker_chars. exact Hin. }
  apply contains_spec.
  exists (String (upper_char q) (upper (escape q a'))),
         (upper (escape q b' ++ String q "")).
  unfold upper. cbn [smap]. rewrite !smap_app, Hm.
  cbn [append]. now rewrite !sapp_assoc.
Qed.

Lemma clear_repr_str (s : string) :
  flagged (repr_str s) = false -> flagged s = false.
Proof.
  intros H. destruct (flagged s) eqn:E; [| reflexivity].
  rewrite (flagged_repr_str s E) in H. discriminate.
Qed.

End Flagged.

(** ** Cleaning *)

Section Cleaning.
Import Cleaner.
Variable fr : Q -> string.

Lemma clean_dict (d : dict) :
  clean_recursive fr (VDict d) = VDict (clean_entries fr d).
Proof.
  reflexivity.
Qed.

Lemma clean_list (l : list value) :
  clean_recursive fr (VList l) = VList (clean_items fr l).
Proof.
  reflexivity.
Qed.

(** The comprehensions as a filter followed by a map. *)
Lemma clean_entries_filter_map (d : dict) :
  clean_entries fr d
  = map (fun kv => (fst kv, clean_recursive fr (snd kv)))
      (filter (fun kv => negb (flagged (fst kv))) d).
Proof.
  induction d as [| [k v] rest IH]; cbn [clean_entries filter fst];
    [reflexivity |].
  destruct (flagged k); cbn [negb map fst snd]; now rewrite IH.
Qed.

Lemma clean_items_filter_map (l : list value) :
  clean_items fr l
  = map (clean_recursive fr)
      (filter (fun item => negb (flagged (py_str fr item))) l).
Proof.
  induction l as [| item rest IH]; cbn [clean_items filter];
    [reflexivity |].
  destruct (flagged (py_str fr item)); cbn [negb map]; now rewrite IH.
Qed.

Lemma clear_str_of_repr (v : value) :
  flagged (py_repr fr v) = false -> flagged (py_str fr v) = false.
Proof.
  destruct v; cbn [py_str]; auto.
  cbn [py_repr]. apply clear_repr_str.
Qed.

(** Nothing is removed from a value whose [repr] is not flagged. *)
Lemma clean_clear_repr (v : value) :
  flagged (py_repr fr v) = false -> clean_recursive fr v = v.
Proof.
  induction v as [| b | z | q | s | l IH | d IH] using value_nested_ind;
    try reflexivity; intros Hclear.
  - rewrite clean_list. f_equal.
    assert (Hparts : forall x, In x l -> flagged (py_repr fr x) = false).
    { intros x Hx. cbn [py_repr] in Hclear.
      destruct (join_member ", " (py_repr fr x) (map (py_repr fr) l)
                  (in_map _ _ _ Hx)) as (a & b & Hj).
      rewrite Hj in Hclear.
      apply clear_inside in Hclear.
      rewrite <- sapp_assoc in Hclear.
      replace ((a ++ py_repr fr x) ++ b)
        with ("" ++ (a ++ py_repr fr x) ++ b) in Hclear by reflexivity.
      apply clear_inside in Hclear.
      replace (a ++ py_repr fr x)
        with (a ++ py_repr fr x ++ "") in Hclear by now rewrite sapp_nil_r.
      apply clear_inside in Hclear. exact Hclear. }
    clear Hclear.
    induction l as [| x rest IHl]; cbn [clean_items]; [reflexivity |].
    inversion IH as [| ? ? Hx Hrest]; subst.
    rewrite (clear_str_of_repr x (Hparts x (or_introl eq_refl))).
    rewrite (Hx (Hparts x (or_introl eq_refl))).
    f_equal. apply IHl; [exact Hrest |].
    intros y Hy. apply Hparts. right. exact Hy.
  - rewrite clean_dict. f_equal.
    assert (Hparts : forall k x, In (k, x) d ->
              flagged k = false /\ flagged (py_repr fr x) = false).
    { intros k x Hx. cbn [py_repr] in Hclear.
      set (show := fun kv : string * value =>
                     let (k, x) := kv in repr_str k ++ ": " ++ py_repr fr x)
        in Hclear.
      destruct (join_member ", " (show (k, x)) (map show d)
                  (in_map show _ _ Hx)) as (a & b & Hj).
      rewrite Hj in Hclear.
      apply clear_inside in Hclear.
      rewrite <- sapp_assoc in Hclear.
      replace ((a ++ show (k, x)) ++ b)
        with ("" ++ (a ++ show (k, x)) ++ b) in Hclear by reflexivity.
      apply clear_inside in Hclear.
      replace (a ++ show (k, x))
        with (a ++ show (k, x) ++ "") in Hclear by now rewrite sapp_nil_r.
      apply clear_inside in Hclear.
      unfold show in Hclear. split.
      - apply clear_repr_str.
        apply (clear_inside "" (repr_str k) (": " ++ py_repr fr x)).
        exact Hclear.
      - replace (repr_str k ++ ": " ++ py_repr fr x)
          with ((repr_str k ++ ": ") ++ py_repr fr x ++ "") in Hclear
          by now rewrite sapp_nil_r, sapp_assoc.
        apply clear_inside in Hclear. exact Hclear. }
    clear Hclear.
    induction d as [| [k x] rest IHd]; cbn [clean_entries]; [reflexivity |].
    inversion IH as [| ? ? Hx Hrest]; subst. cbn [snd] in Hx.
    destruct (Hparts k x (or_introl eq_refl)) as (Hk & Hv).
    rewrite Hk, (Hx Hv).
    f_equal. apply IHd; [exact Hrest |].
    intros k' y Hy. apply Hparts. right. exact Hy.
Qed.

(** Nor from a list item that the list comprehension keeps. *)
Lemma clean_kept_item (item : value) :
  flagged (py_str fr item) = false -> clean_recursive fr item = item.
Proof.
  destruct item; try reflexivity; cbn [py_str]; apply clean_clear_repr.
Qed.

Lemma clean_recursive_idempotent (obj : value) :
  clean_recursive fr (clean_recursive fr obj) = clean_recursive fr obj.
Proof.
  induction obj as [| b | z | q | s | l IH | d IH] using value_nested_ind;
    try reflexivity.
  - rewrite clean_list, clean_list. f_equal.
    induction l as [| x rest IHl]; cbn [clean_items]; [reflexivity |].
    inversion IH as [| ? ? Hx Hrest]; subst.
    destruct (flagged (py_str fr x)) eqn:Ex; [exact (IHl Hrest) |].
    rewrite (clean_kept_item x Ex).
    cbn [clean_items]. rewrite Ex, (clean_kept_item x Ex).
    f_equal. exact (IHl Hrest).
  - rewrite clean_dict, clean_dict. f_equal.
    induction d as [| [k x] rest IHd]; cbn [clean_entries]; [reflexivity |].
    inversion IH as [| ? ? Hx Hrest]; subst. cbn [snd] in Hx.
    destruct (flagged k) eqn:Ek; [exact (IHd Hrest) |].
    cbn [clean_entries]. rewrite Ek, Hx.
    f_equal. exact (IHd Hrest).
Qed.

Lemma clean_entries_idempotent (d : dict) :
  clean_entries fr (clean_entries fr d) = clean_entries fr d.
Proof.
  pose proof (clean_recursive_idempotent (VDict d)) as H.
  rewrite !clean_dict in H. injection H as H. exact H.
Qed.

End Cleaning.

(** C6, as stated: every map entry whose key or value contains a banned
    marker would be removed, and a second application would change nothing.
    A map entry is removed for its key only, so the entry "nota" with the
    flagged value "ERRO_42" is kept; and the metadata written at the end
    records the size of the input, so a second application (here on the
    result for the empty map, with the clock standing still) gives a
    different result. *)
Lemma clean_analysis_not_as_stated :
  (Cleaner.flagged "ERRO_42" = true /\
   exists d,
     fst (Cleaner.clean_analysis_for_output_flexible env_quiet
            [("nota", VStr "ERRO_42")] start) = Ok d /\
     Py.lookup d "nota" = Some (VStr "ERRO_42")) /\
  exists once twice,
    fst (Cleaner.clean_analysis_for_output_flexible env_quiet [] start)
    = Ok once /\
    fst (Cleaner.clean_analysis_for_output_flexible env_quiet once start)
    = Ok twice /\
    Py.get_attr (Py.get once "validation_metadata" VNone) "original_size" VNone
    = Ok (VInt 2) /\
    Py.get_attr (Py.get twice "validation_metadata" VNone) "original_size" VNone
    = Ok (VInt 187) /\
    once <> twice.
Proof.
  split.
  - split; [reflexivity |]. eexists. split; reflexivity.
  - eexists _, _.
    split; [vm_compute; reflexivity |].
    split; [vm_compute; reflexivity |].
    split; [reflexivity |].
    split; [vm_compute; reflexivity |].
    intros H. discriminate H.
Qed.

(** C6, amended.  The function always returns.  Its result is the cleaned
    analysis with the entry [validation_metadata] set; cleaning removes,
    at every depth, each map entry whose key contains a banned marker and
    each list item whose text ([str]) contains one, ignoring case, and keeps
    everything else in place and in order (a map entry is not removed on
    account of its value).  The recursive cleaning is idempotent. *)
Theorem clean_analysis_spec (env : Env) (analysis : dict) (w : World) :
  let fr := float_repr env in
  (exists ts w',
     Cleaner.clean_analysis_for_output_flexible env analysis w
     = (Ok (Py.set (Cleaner.clean_entries fr analysis) "validation_metadata"
              (Cleaner.validation_metadata fr ts analysis
                 (Cleaner.clean_entries fr analysis))), w')) /\
  (forall d,
     Cleaner.clean_recursive fr (VDict d)
     = VDict (map (fun kv => (fst kv, Cleaner.clean_recursive fr (snd kv)))
                (filter (fun kv => negb (Cleaner.flagged (fst kv))) d))) /\
  (forall l,
     Cleaner.clean_recursive fr (VList l)
     = VList (map (Cleaner.clean_recursive fr)
                (filter (fun item => negb (Cleaner.flagged (py_str fr item))) l))) /\
  (forall obj,
     (forall d, obj <> VDict d) -> (forall l, obj <> VList l) ->
     Cleaner.clean_recursive fr obj = obj) /\
  (forall text,
     Cleaner.flagged (Text.lower text) = Cleaner.flagged text /\
     Cleaner.flagged (Text.upper text) = Cleaner.flagged text) /\
  (forall obj,
     Cleaner.clean_recursive fr (Cleaner.clean_recursive fr obj)
     = Cleaner.clean_recursive fr obj) /\
  Cleaner.clean_entries fr (Cleaner.clean_entries fr analysis)
  = Cleaner.clean_entries fr analysis.
Proof.
  intros fr.
  split; [eexists _, _; reflexivity |].
  split; [intros d; rewrite clean_dict, clean_entries_filter_map; reflexivity |].
  split; [intros l; rewrite clean_list, clean_items_filter_map; reflexivity |].
  split.
  { intros obj Hd Hl. destruct obj; try reflexivity.
    - exfalso. exact (Hl _ eq_refl).
    - exfalso. exact (Hd _ eq_refl). }
  split; [intros text; split; [apply flagged_lower | apply flagged_upper] |].
  split; [apply clean_recursive_idempotent | apply clean_entries_idempotent].
Qed.

Lemma clean_analysis_spec_witness :
  Cleaner.clean_recursive plain_float (VStr "ERRO_42") = VStr "ERRO_42" /\
  Cleaner.clean_recursive plain_float
    (VDict [("dados", VList [VStr "ok"; VStr "falha_total"; VInt 3]);
            ("Erro_interno", VStr "x");
            ("nota", VStr "ERRO_42")])
  = VDict [("dados", VList [VStr "ok"; VInt 3]); ("nota", VStr "ERRO_42")].
Proof.
  destruct (clean_analysis_spec env_quiet [] start) as (_ & _ & _ & Hscalar & _).
  split.
  - apply Hscalar; intros; discriminate.
  - reflexivity.
Defined.

(** The rendering of escapes agrees with the interpreter on a text that
    mixes control characters, a backslash and both kinds of quotes. *)
Example repr_escapes :
  repr_str
    (String "a" (String "015" (String "b" (String "010" (String "009"
      (String backslash (String squote (String dquote ""))))))))
  = String squote
      (String "a" (String backslash ("x0fb" ++ String backslash ("n"
         ++ String backslash ("t" ++ String backslash (String backslash
         (String backslash (String squote (String dquote
         (String squote "")))))))))).
Proof. vm_compute. reflexivity. Qed.

(** * Further properties of the scorers *)

Section ScorerShapes.
Import Scorers.

Lemma min_under (a b : Q) : a <= b -> Py.min a b = a.
Proof.
intros H. unfold Py.min. destruct (Py.Qltb b a) eqn:E; [| reflexivity].
apply Qltb_true in E. apply Qle_not_lt in H. contradiction.
Qed.


Lemma lens_sized (items : list value) :
  forallb sized items = true ->
  exists sizes, lens items = Ok sizes /\ length sizes = length items.
Proof.
induction items as [| x rest IH]; cbn [forallb lens].
- intros _. exists []. split; reflexivity.
- rewrite andb_true_iff. intros (Hx & Hrest).
  destruct (IH Hrest) as (sizes & Hs & Hl).
  destruct x; try discriminate Hx; cbn [Py.len rbind]; rewrite Hs; cbn [rbind];
    eexists; (split; [reflexivity | cbn [length]; now rewrite Hl]).
Qed.

Lemma lens_unsized (items : list value) :
  forallb sized items = false -> lens items = Raise TypeError.
Proof.
induction items as [| x rest IH]; cbn [forallb lens]; [discriminate |].
rewrite andb_false_iff. intros [Hx | Hrest].
- destruct x; try discriminate Hx; reflexivity.
- rewrite (IH Hrest).
  destruct x; cbn [Py.len rbind]; reflexivity.
Qed.

End ScorerShapes.

(** X1.  The structure score is 50 for a filled avatar section plus 10 for
    each filled optional section; it lies within [0, 100] and does not depend
    on the profile. *)
Theorem structure_score_closed_form (analysis : dict) (th th' : Thresholds) :
  let s := Scorers._validate_structure_flexible analysis th in
  s == (if Scorers.section_filled analysis "avatar_ultra_detalhado"
        then 50 else 0)
       + 10 * count_true (Scorers.section_filled analysis)
                Scorers.optional_sections /\
  0 <= s /\ s <= 100 /\
  Scorers._validate_structure_flexible analysis th' = s.
Proof.
unfold Scorers._validate_structure_flexible, count_true,
  Scorers.essential_sections, Scorers.optional_sections.
cbn [fold_left filter].
destruct (Scorers.section_filled analysis "avatar_ultra_detalhado");
  destruct (Scorers.section_filled analysis "drivers_mentais_customizados");
  destruct (Scorers.section_filled analysis "provas_visuais_sugeridas");
  destruct (Scorers.section_filled analysis "sistema_anti_objecao");
  destruct (Scorers.section_filled analysis "pre_pitch_invisivel");
  destruct (Scorers.section_filled analysis "insights_exclusivos");
  repeat split; vm_compute; try reflexivity; discriminate.
Qed.



(** X3.  For an avatar that is present, not empty and not a map, the avatar
    scorer raises a TypeError when the avatar is a number or a boolean, or a
    text that contains one of the four subsection names, or a list that has
    one of them as an item; otherwise it returns 20. *)
Theorem avatar_score_of_non_map (analysis : dict) (th : Thresholds)
  (avatar : value) :
  Py.get analysis "avatar_ultra_detalhado" (VDict []) = avatar ->
  Py.truthy avatar = true ->
  (forall d, avatar <> VDict d) ->
  Scorers._validate_avatar_flexible analysis th
  = if avatar_breaks avatar then Raise TypeError else Ok 20%Q.
Proof.
intros Hget Htruthy Hnot. unfold Scorers._validate_avatar_flexible.
rewrite Hget, Htruthy. cbn [negb].
unfold avatar_breaks, Scorers.avatar_sections.
destruct avatar as [| b | z | q | s | l | d];
  try reflexivity; try (exfalso; exact (Hnot _ eq_refl));
  cbn [Scorers.for_each Scorers.avatar_section_step existsb rbind].
- destruct (Text.contains "perfil_demografico" s); [reflexivity |].
  cbn [rbind orb Scorers.for_each Scorers.avatar_section_step].
  destruct (Text.contains "perfil_psicografico" s); [reflexivity |].
  cbn [rbind orb Scorers.for_each Scorers.avatar_section_step].
  destruct (Text.contains "dores_viscerais" s); [reflexivity |].
  cbn [rbind orb Scorers.for_each Scorers.avatar_section_step].
  destruct (Text.contains "desejos_secretos" s); reflexivity.
- destruct (existsb (Scorers.is_str "perfil_demografico") l); [reflexivity |].
  cbn [rbind orb Scorers.for_each Scorers.avatar_section_step].
  destruct (existsb (Scorers.is_str "perfil_psicografico") l); [reflexivity |].
  cbn [rbind orb Scorers.for_each Scorers.avatar_section_step].
  destruct (existsb (Scorers.is_str "dores_viscerais") l); [reflexivity |].
  cbn [rbind orb Scorers.for_each Scorers.avatar_section_step].
  destruct (existsb (Scorers.is_str "desejos_secretos") l); reflexivity.
Qed.

Lemma avatar_score_of_non_map_witness :
  Scorers._validate_avatar_flexible
    [("avatar_ultra_detalhado", VStr "dores_viscerais: medo de falhar")]
    (validation_levels EMERGENCY) = Raise TypeError /\
  Scorers._validate_avatar_flexible
    [("avatar_ultra_detalhado", VStr "empreendedor digital")]
    (validation_levels EMERGENCY) = Ok 20%Q.
Proof.
split.
- apply (avatar_score_of_non_map
           [("avatar_ultra_detalhado", VStr "dores_viscerais: medo de falhar")]
           (validation_levels EMERGENCY)
           (VStr "dores_viscerais: medo de falhar") eq_refl eq_refl).
  intros d H. discriminate H.
- apply (avatar_score_of_non_map
           [("avatar_ultra_detalhado", VStr "empreendedor digital")]
           (validation_levels EMERGENCY)
           (VStr "empreendedor digital") eq_refl eq_refl).
  intros d H. discriminate H.
Defined.

Section Ratios.
Import Scorers.

Lemma ratio_pos (x t c : Q) : 0 < x -> 0 < t -> 0 < c -> 0 < x / t * c.
Proof.
intros Hx Ht Hc.
apply Qmult_lt_0_compat; [| exact Hc].
apply Qlt_shift_div_l; [exact Ht | lra].
Qed.

(** A smaller threshold gives a larger share. *)
Lemma ratio_antitone (x t t' c : Q) :
  0 < x -> 0 < t' -> t' <= t -> 0 <= c -> x / t * c <= x / t' * c.
Proof.
intros Hx Ht' Hle Hc.
apply Qmult_le_compat_r; [| exact Hc].
assert (Ht : 0 < t) by lra.
assert (Hprod : x * t' <= x * t).
{ setoid_replace (x * t') with (t' * x) by ring.
  setoid_replace (x * t) with (t * x) by ring.
  apply Qmult_le_compat_r; lra. }
assert (Hinv : 0 <= / (t * t')).
{ apply Qinv_le_0_compat. apply Qmult_le_0_compat; lra. }
setoid_replace (x / t) with (x * t' * / (t * t')) by (field; split; lra).
setoid_replace (x / t') with (x * t * / (t * t')) by (field; split; lra).
apply Qmult_le_compat_r; assumption.
Qed.

Lemma inject_Z_le (a b : Z) : (a <= b)%Z -> inject_Z a <= inject_Z b.
Proof. intros H. rewrite <- Zle_Qle. exact H. Qed.

Lemma Qle_bool_false (a b : Q) : Qle_bool a b = false -> b < a.
Proof.
intros H. apply Qnot_le_lt. intros Hle.
apply Qle_bool_iff in Hle. congruence.
Qed.

Lemma scaled_points_antitone (x : Q) (t t' : Z) (score score' : Q) :
  (t' <= t)%Z -> score <= score' ->
  scaled_points x t score <= scaled_points x t' score'.
Proof.
intros Ht Hs. apply inject_Z_le in Ht.
pose proof (scaled_points_ge x t' score') as Hge'.
unfold scaled_points in *.
destruct (Qle_bool (inject_Z t) x) eqn:E1.
- apply Qle_bool_iff in E1.
  assert (E1' : Qle_bool (inject_Z t') x = true)
    by (apply Qle_bool_iff; lra).
  rewrite E1'. lra.
- apply Qle_bool_false in E1.
  destruct (Py.Qltb 0 x) eqn:E2; [| lra].
  apply Qltb_true in E2.
  destruct (Qle_bool (inject_Z t') x) eqn:E1'.
  + assert (x / inject_Z t * 30 <= 30); [| lra].
    setoid_replace 30 with (1 * 30) at 2 by ring.
    apply Qmult_le_compat_r; [| lra].
    apply Qle_shift_div_r; lra.
  + apply Qle_bool_false in E1'.
    pose proof (ratio_antitone x (inject_Z t) (inject_Z t') 30) as H.
    assert (0 < inject_Z t') by lra.
    specialize (H E2 H0 Ht ltac:(lra)). lra.
Qed.

Lemma min_monotone (a a' b : Q) : a <= a' -> Py.min a b <= Py.min a' b.
Proof.
intros H. unfold Py.min.
destruct (Py.Qltb b a) eqn:E; destruct (Py.Qltb b a') eqn:E'.
- lra.
- apply Qltb_true in E. apply Qltb_false in E'. lra.
- apply Qltb_false in E. lra.
- exact H.
Qed.

Lemma Qlen_pos {A} (l : list A) : l <> [] -> 0 < Qlen l.
Proof.
destruct l as [| x l]; [congruence |]. intros _.
unfold Qlen. change 0 with (inject_Z 0). rewrite <- Zlt_Qlt.
cbn [length]. lia.
Qed.

Lemma Qlen_nonneg {A} (l : list A) : 0 <= Qlen l.
Proof.
unfold Qlen. change 0 with (inject_Z 0). rewrite <- Zle_Qle. lia.
Qed.

End Ratios.

Section InsightsFacts.
Import Scorers.

Lemma insights_unfold (analysis : dict) (th : Thresholds) (l : list value)
  (sizes : list nat) :
  Py.get analysis "insights_exclusivos" (VList []) = VList l ->
  l <> [] ->
  lens l = Ok sizes ->
  _validate_insights_flexible analysis th
  = Ok (Py.min (quality_points sizes (Qlen l)
                  (quantity_points (Qlen l) (min_insights th))) 100).
Proof.
intros Hget Hne Hs. unfold _validate_insights_flexible. rewrite Hget.
destruct l as [| x l]; [congruence |].
cbn [Py.truthy length Nat.eqb negb]. rewrite Hs. reflexivity.
Qed.

Lemma quantity_points_low (n : Q) (threshold : Z) :
  0 < n -> 10 < quantity_points n threshold.
Proof.
intros Hn. unfold quantity_points.
destruct (Qle_bool (inject_Z threshold) n) eqn:E1; [lra |].
apply Qle_bool_false in E1.
destruct (Py.Qltb 0 n) eqn:E2.
- pose proof (ratio_pos n (inject_Z threshold) 50 Hn) as H.
  specialize (H ltac:(lra) ltac:(lra)). lra.
- apply Qltb_false in E2. lra.
Qed.

Lemma quantity_points_antitone (n : Q) (t t' : Z) :
  (t' <= t)%Z -> quantity_points n t <= quantity_points n t'.
Proof.
intros Ht. apply inject_Z_le in Ht. unfold quantity_points.
destruct (Qle_bool (inject_Z t) n) eqn:E1.
- apply Qle_bool_iff in E1.
  assert (E1' : Qle_bool (inject_Z t') n = true)
    by (apply Qle_bool_iff; lra).
  rewrite E1'. lra.
- apply Qle_bool_false in E1.
  destruct (Py.Qltb 0 n) eqn:E2.
  + apply Qltb_true in E2.
    destruct (Qle_bool (inject_Z t') n) eqn:E1'.
    * assert (n / inject_Z t * 50 <= 50); [| lra].
      setoid_replace 50 with (1 * 50) at 2 by ring.
      apply Qmult_le_compat_r; [| lra].
      apply Qle_shift_div_r; lra.
    * apply Qle_bool_false in E1'.
      pose proof (ratio_antitone n (inject_Z t) (inject_Z t') 50) as H.
      specialize (H E2 ltac:(lra) Ht ltac:(lra)). lra.
  + apply Qltb_false in E2.
    destruct (Qle_bool (inject_Z t') n); [lra |]. lra.
Qed.

Lemma quality_points_ge (sizes : list nat) (n score : Q) :
  0 < n -> score <= quality_points sizes n score.
Proof.
intros Hn. unfold quality_points.
destruct (negb _); [| lra].
assert (0 <= Qlen (filter (fun k => (50 <? k)%nat) sizes) / n * 40); [| lra].
apply Qmult_le_0_compat; [| lra].
apply Qle_shift_div_l; [exact Hn |].
pose proof (Qlen_nonneg (filter (fun k => (50 <? k)%nat) sizes)). lra.
Qed.

Lemma quality_points_monotone (sizes : list nat) (n score score' : Q) :
  score <= score' ->
  quality_points sizes n score <= quality_points sizes n score'.
Proof.
intros H. unfold quality_points. destruct (negb _); lra.
Qed.

End InsightsFacts.

(** X4.  The insights scorer returns exactly 10 when the insights entry is
    missing, empty or not a list.  For a non-empty list it returns a score
    above 10 and at most 100 when every insight has a length (a text, a list
    or a map), and raises a TypeError when some insight has none. *)
Theorem insights_score_shape (analysis : dict) (th : Thresholds) :
  let insights := Py.get analysis "insights_exclusivos" (VList []) in
  let r := Scorers._validate_insights_flexible analysis th in
  ((forall l, insights = VList l -> l = []) -> r = Ok 10%Q) /\
  (forall l, insights = VList l -> l <> [] ->
     if forallb sized l
     then exists s, r = Ok s /\ 10 < s /\ s <= 100
     else r = Raise TypeError).
Proof.
cbv zeta. split.
- intros Hempty. unfold Scorers._validate_insights_flexible.
  destruct (Py.get analysis "insights_exclusivos" (VList []))
    as [| b | z | q | s | l | d]; try reflexivity.
  rewrite (Hempty l eq_refl). reflexivity.
- intros l Hget Hne.
  destruct (forallb sized l) eqn:Hsized.
  + destruct (lens_sized l Hsized) as (sizes & Hs & _).
    rewrite (insights_unfold analysis th l sizes Hget Hne Hs).
    eexists. split; [reflexivity |].
    pose proof (Qlen_pos l Hne) as Hpos.
    pose proof (quantity_points_low (Scorers.Qlen l) (min_insights th) Hpos).
    pose proof (quality_points_ge sizes (Scorers.Qlen l)
                  (quantity_points (Scorers.Qlen l) (min_insights th)) Hpos).
    split; [| apply min_le_r].
    unfold Py.min. destruct (Py.Qltb _ _); lra.
  + unfold Scorers._validate_insights_flexible. rewrite Hget.
    destruct l as [| x l]; [discriminate Hsized |].
    cbn [Py.truthy length Nat.eqb negb].
    rewrite (lens_unsized _ Hsized). reflexivity.
Qed.

Lemma insights_score_shape_witness :
  Scorers._validate_insights_flexible [] (validation_levels STRICT) = Ok 10%Q /\
  (exists s,
     Scorers._validate_insights_flexible sample_analysis
       (validation_levels STRICT) = Ok s /\ 10 < s /\ s <= 100) /\
  Scorers._validate_insights_flexible
    [("insights_exclusivos", VList [VStr "um"; VInt 2])]
    (validation_levels STRICT) = Raise TypeError.
Proof.
split; [| split].
- apply (proj1 (insights_score_shape [] (validation_levels STRICT))).
  intros l H. injection H as <-. reflexivity.
- exact (proj2 (insights_score_shape sample_analysis (validation_levels STRICT))
           _ eq_refl ltac:(discriminate)).
- exact (proj2 (insights_score_shape
                  [("insights_exclusivos", VList [VStr "um"; VInt 2])]
                  (validation_levels STRICT))
           _ eq_refl ltac:(discriminate)).
Defined.

Section ProfileOrder.
Import Scorers.

Lemma research_ok_monotone (analysis : dict) (th th' : Thresholds) (s : Q) :
  looser th th' ->
  _validate_research_flexible analysis th = Ok s ->
  exists s', _validate_research_flexible analysis th' = Ok s' /\ s <= s'.
Proof.
intros (Hc & Hs & _). unfold _validate_research_flexible.
destruct (negb (Py.truthy _)); [intros H; injection H as <-; eexists; split;
                                 [reflexivity | lra] |].
destruct (Py.get_attr _ "estatisticas" _) as [stats | e]; cbn [rbind];
  [| discriminate].
destruct (Py.get_attr stats "total_conteudo" _) as [v1 | e]; cbn [rbind];
  [| discriminate].
destruct (Py.num v1) as [tc | e]; cbn [rbind]; [| discriminate].
destruct (Py.get_attr stats "fontes_unicas" _) as [v2 | e]; cbn [rbind];
  [| discriminate].
destruct (Py.num v2) as [us | e]; cbn [rbind]; [| discriminate].
destruct (Py.get_attr stats "qualidade_media" _) as [v3 | e]; cbn [rbind];
  [| discriminate].
destruct (Py.num v3) as [q | e]; cbn [rbind]; [| discriminate].
intros H. injection H as <-. eexists. split; [reflexivity |].
apply min_monotone.
assert (scaled_points us (min_sources th)
          (scaled_points tc (min_content_length th) 20)
        <= scaled_points us (min_sources th')
             (scaled_points tc (min_content_length th') 20)); [| lra].
apply scaled_points_antitone; [exact Hs |].
apply scaled_points_antitone; [exact Hc | lra].
Qed.

Lemma research_raise_fixed (analysis : dict) (th th' : Thresholds) (e : exn) :
  _validate_research_flexible analysis th = Raise e ->
  _validate_research_flexible analysis th' = Raise e.
Proof.
unfold _validate_research_flexible.
destruct (negb (Py.truthy _)); [discriminate |].
destruct (Py.get_attr _ "estatisticas" _) as [stats | e0]; cbn [rbind];
  [| auto].
destruct (Py.get_attr stats "total_conteudo" _) as [v1 | e0]; cbn [rbind];
  [| auto].
destruct (Py.num v1) as [tc | e0]; cbn [rbind]; [| auto].
destruct (Py.get_attr stats "fontes_unicas" _) as [v2 | e0]; cbn [rbind];
  [| auto].
destruct (Py.num v2) as [us | e0]; cbn [rbind]; [| auto].
destruct (Py.get_attr stats "qualidade_media" _) as [v3 | e0]; cbn [rbind];
  [| auto].
destruct (Py.num v3) as [q | e0]; cbn [rbind]; [discriminate | auto].
Qed.

Lemma insights_ok_monotone (analysis : dict) (th th' : Thresholds) (s : Q) :
  looser th th' ->
  _validate_insights_flexible analysis th = Ok s ->
  exists s', _validate_insights_flexible analysis th' = Ok s' /\ s <= s'.
Proof.
intros (_ & _ & Hi & _). unfold _validate_insights_flexible.
destruct (Py.get analysis "insights_exclusivos" (VList []))
  as [| b | z | q | t | l | d];
  try (intros H; injection H as <-; eexists; split; [reflexivity | lra]).
destruct (negb (Py.truthy (VList l)));
  [intros H; injection H as <-; eexists; split; [reflexivity | lra] |].
destruct (lens l) as [sizes | e]; cbn [rbind]; [| discriminate].
intros H. injection H as <-. eexists. split; [reflexivity |].
apply min_monotone.
apply (quality_points_monotone sizes (Qlen l)
         (quantity_points (Qlen l) (min_insights th))
         (quantity_points (Qlen l) (min_insights th'))).
apply quantity_points_antitone. exact Hi.
Qed.

Lemma insights_raise_fixed (analysis : dict) (th th' : Thresholds) (e : exn) :
  _validate_insights_flexible analysis th = Raise e ->
  _validate_insights_flexible analysis th' = Raise e.
Proof.
unfold _validate_insights_flexible.
destruct (Py.get analysis "insights_exclusivos" (VList []))
  as [| b | z | q | t | l | d]; try discriminate.
destruct (negb (Py.truthy (VList l))); [discriminate |].
destruct (lens l) as [sizes | e0]; cbn [rbind]; [discriminate | auto].
Qed.

Lemma simulation_ok_monotone (g : Globals) (analysis : dict)
  (th th' : Thresholds) (s : Q) :
  looser th th' ->
  _detect_simulation_with_tolerance g analysis th = Ok s ->
  exists s', _detect_simulation_with_tolerance g analysis th' = Ok s' /\ s <= s'.
Proof.
intros (_ & _ & _ & _ & Ht). unfold _detect_simulation_with_tolerance.
destruct (g_json g) as [dumps |]; [| discriminate].
destruct (dumps analysis) as [text | e]; cbn [rbind]; [| discriminate].
intros H. injection H as <-. eexists. split; [reflexivity |].
apply simulation_tier_tolerance_monotone. exact Ht.
Qed.

Lemma simulation_raise_fixed (g : Globals) (analysis : dict)
  (th th' : Thresholds) (e : exn) :
  _detect_simulation_with_tolerance g analysis th = Raise e ->
  _detect_simulation_with_tolerance g analysis th' = Raise e.
Proof.
unfold _detect_simulation_with_tolerance.
destruct (g_json g) as [dumps |]; [| auto].
destruct (dumps analysis) as [text | e0]; cbn [rbind]; [discriminate | auto].
Qed.

(** The table of thresholds runs from the strictest to the loosest. *)
Lemma levels_looser (l1 l2 : Level) :
  (level_index l1 <= level_index l2)%nat ->
  looser (validation_levels l1) (validation_levels l2).
Proof.
destruct l1, l2; cbn [level_index]; intros H; try lia;
  unfold looser; cbn; repeat split; try lia; unfold Qle; cbn; lia.
Qed.

Lemma mean_five_monotone (a b c d e a' b' c' d' e' : Q) :
  a <= a' -> b <= b' -> c <= c' -> d <= d' -> e <= e' ->
  Validator.mean [a; b; c; d; e] <= Validator.mean [a'; b'; c'; d'; e'].
Proof.
intros. unfold Validator.mean. cbn [fold_left].
unfold Qdiv. apply Qmult_le_compat_r; [lra |].
vm_compute. discriminate.
Qed.

End ProfileOrder.

(** X5.  A profile that asks for less never scores the research or the
    insights of an analysis lower: when the scorer returns for the stricter
    profile it returns at least as much for the looser one, and when it
    raises it raises the same exception for both.  The four levels are
    ordered this way. *)
Theorem count_scorers_favour_looser
  (analysis : dict) (l1 l2 : Level) :
  (level_index l1 <= level_index l2)%nat ->
  looser (validation_levels l1) (validation_levels l2) /\
  match Scorers._validate_research_flexible analysis (validation_levels l1) with
  | Ok s =>
      exists s',
        Scorers._validate_research_flexible analysis (validation_levels l2)
        = Ok s' /\ s <= s'
  | Raise e =>
      Scorers._validate_research_flexible analysis (validation_levels l2)
      = Raise e
  end /\
  match Scorers._validate_insights_flexible analysis (validation_levels l1) with
  | Ok s =>
      exists s',
        Scorers._validate_insights_flexible analysis (validation_levels l2)
        = Ok s' /\ s <= s'
  | Raise e =>
      Scorers._validate_insights_flexible analysis (validation_levels l2)
      = Raise e
  end.
Proof.
intros Hle. pose proof (levels_looser l1 l2 Hle) as Hl.
split; [exact Hl |]. split.
- destruct (Scorers._validate_research_flexible analysis (validation_levels l1))
    as [s | e] eqn:E.
  + exact (research_ok_monotone _ _ _ _ Hl E).
  + exact (research_raise_fixed _ _ _ _ E).
- destruct (Scorers._validate_insights_flexible analysis (validation_levels l1))
    as [s | e] eqn:E.
  + exact (insights_ok_monotone _ _ _ _ Hl E).
  + exact (insights_raise_fixed _ _ _ _ E).
Qed.

Lemma count_scorers_favour_looser_witness :
  exists s s',
    Scorers._validate_insights_flexible sample_analysis
      (validation_levels STRICT) = Ok s /\
    Scorers._validate_insights_flexible sample_analysis
      (validation_levels FLEXIBLE) = Ok s' /\
    s <= s' /\ s == 35 /\ s' == 60.
Proof.
destruct (count_scorers_favour_looser sample_analysis STRICT FLEXIBLE
            ltac:(cbn; lia)) as (_ & _ & H).
destruct (Scorers._validate_insights_flexible sample_analysis
            (validation_levels STRICT)) as [s | e] eqn:E;
  [| vm_compute in E; discriminate E].
destruct H as (s' & Hs' & Hle).
exists s, s'. split; [reflexivity |]. split; [exact Hs' |]. split; [exact Hle |].
vm_compute in E. injection E as <-.
vm_compute in Hs'. injection Hs' as <-.
split; reflexivity.
Defined.

(** X6.  For every binding of [json], every analysis and every two levels of
    which the second comes later in the order: the quality score assessed at
    the later level is at least the one assessed at the earlier level, and
    an analysis that is valid at the earlier level is valid at the later one.
    So once the loop reaches a level that is met, every level after it would
    have been met as well. *)
Theorem acceptance_upward_closed
  (g : Globals) (analysis : dict) (l1 l2 : Level) (ts : string) :
  (level_index l1 <= level_index l2)%nat ->
  quality_score (Validator.assess g analysis l1 ts)
  <= quality_score (Validator.assess g analysis l2 ts) /\
  (valid (Validator.assess g analysis l1 ts) = true ->
   valid (Validator.assess g analysis l2 ts) = true).
Proof.
intros Hle. pose proof (levels_looser l1 l2 Hle) as Hl.
assert (Hq : quality_score (Validator.assess g analysis l1 ts)
             <= quality_score (Validator.assess g analysis l2 ts)).
{ destruct (assess_cases g analysis l1 ts)
    as [(e & (_ & _ & Hq1 & _) & He)
       | (s2 & s3 & s4 & s5 & E2 & E3 & E4 & E5 & _ & Hq1 & _)];
    destruct (assess_cases g analysis l2 ts)
    as [(e' & (_ & _ & Hq2 & _) & He')
       | (t2 & t3 & t4 & t5 & F2 & F3 & F4 & F5 & _ & Hq2 & _)].
  - rewrite Hq1, Hq2. lra.
  - exfalso. destruct He as [H | [H | [H | H]]].
    + apply (research_raise_fixed _ _ (validation_levels l2)) in H. congruence.
    + unfold Scorers._validate_avatar_flexible in *. congruence.
    + apply (insights_raise_fixed _ _ (validation_levels l2)) in H. congruence.
    + apply (simulation_raise_fixed _ _ _ (validation_levels l2)) in H.
      congruence.
  - exfalso.
    destruct (research_ok_monotone _ _ _ _ Hl E2) as (u2 & G2 & _).
    destruct (insights_ok_monotone _ _ _ _ Hl E4) as (u4 & G4 & _).
    destruct (simulation_ok_monotone _ _ _ _ _ Hl E5) as (u5 & G5 & _).
    destruct He' as [H | [H | [H | H]]]; try congruence.
    unfold Scorers._validate_avatar_flexible in *. congruence.
  - rewrite Hq1, Hq2.
    destruct (research_ok_monotone _ _ _ _ Hl E2) as (u2 & G2 & H2).
    destruct (insights_ok_monotone _ _ _ _ Hl E4) as (u4 & G4 & H4).
    destruct (simulation_ok_monotone _ _ _ _ _ Hl E5) as (u5 & G5 & H5).
    assert (u2 = t2) by congruence.
    assert (u4 = t4) by congruence.
    assert (u5 = t5) by congruence.
    assert (s3 = t3)
      by (unfold Scorers._validate_avatar_flexible in *; congruence).
    subst.
    apply mean_five_monotone; try lra.
    unfold Scorers._validate_structure_flexible. lra. }
split; [exact Hq |].
rewrite !assess_valid. intros Hv.
apply Qle_bool_iff in Hv. apply Qle_bool_iff.
destruct Hl as (_ & _ & _ & Hmin & _). lra.
Qed.

Lemma acceptance_upward_closed_witness :
  valid (Validator.assess json_bound sample_analysis MODERATE "t") = true /\
  valid (Validator.assess json_bound sample_analysis EMERGENCY "t") = true /\
  quality_score (Validator.assess json_bound sample_analysis MODERATE "t")
  <= quality_score (Validator.assess json_bound sample_analysis EMERGENCY "t").
Proof.
destruct (acceptance_upward_closed json_bound sample_analysis MODERATE EMERGENCY
            "t" ltac:(cbn; lia)) as (Hq & Hv).
assert (H : valid (Validator.assess json_bound sample_analysis MODERATE "t")
            = true) by (vm_compute; reflexivity).
split; [exact H |]. split; [exact (Hv H) | exact Hq].
Defined.

(** * Further properties of the validation *)

(** X7.  Whatever the binding of [json], the analysis and the collaborator:
    an exception that leaves the validation was raised by the collaborator
    on an error report or on the emergency record.  Failures of the scorers
    and refusals of attempt records never leave it. *)
Theorem validate_raises_only_from_fallback
  (g : Globals) (env : Env) (analysis : dict) (session_id : option string)
  (w w' : World) (e : exn) :
  Validator.validate_with_progressive_tolerance g env analysis session_id w
  = (Raise e, w') ->
  exists j c,
    collaborator env j c = Some e /\
    (call_nome c = "validacao_emergencia" \/ call_nome c = "validacao_critica").
Proof.
assert (Hem : forall w0 w1 e0,
           Validator._create_emergency_validation env analysis session_id w0
           = (Raise e0, w1) ->
           exists j c, collaborator env j c = Some e0 /\
                       call_nome c = "validacao_emergencia").
{ intros w0 w1 e0 H. pose proof (emergency_spec env analysis session_id w0) as Hs.
  destruct (collaborator env (journal w0) _) as [e1 |] eqn:Ec;
    destruct Hs as (w2 & Hs); rewrite Hs in H; [| discriminate].
  injection H as <- _. eexists _, _. split; [exact Ec | reflexivity]. }
unfold Validator.validate_with_progressive_tolerance, Prog.try_except.
unfold Prog.bind at 1.
assert (Hhandler : forall e0 w0,
           (Prog.bind (salvar_erro env "validacao_critica" e0 session_id)
              (fun _ => Validator._create_emergency_validation env analysis
                          session_id)) w0 = (Raise e, w') ->
           exists j c,
             collaborator env j c = Some e /\
             (call_nome c = "validacao_emergencia" \/
              call_nome c = "validacao_critica")).
{ intros e0 w0. unfold Prog.bind, salvar_erro, invoke.
  destruct (collaborator env (journal w0) _) as [e1 |] eqn:Ec.
  - intros H. injection H as <- _. eexists _, _.
    split; [exact Ec | right; reflexivity].
  - intros H. destruct (Hem _ _ _ H) as (j & c & Hc & Hn).
    exists j, c. split; [exact Hc | left; exact Hn]. }
destruct (Validator.try_levels g env analysis session_id
            Validator.validation_order w) as [[[v0 |] | e0] w0].
- discriminate.
- destruct (Validator._create_emergency_validation env analysis session_id w0)
    as [[v1 | e1] w1]; [discriminate |].
  apply Hhandler.
- apply Hhandler.
Qed.

Lemma validate_raises_only_from_fallback_witness :
  exists j c,
    collaborator env_all_fail j c = Some (CollaboratorError "disk full") /\
    (call_nome c = "validacao_emergencia" \/ call_nome c = "validacao_critica").
Proof.
apply (validate_raises_only_from_fallback module_globals env_all_fail [] None
         start
         (snd (Validator.validate_with_progressive_tolerance module_globals
                 env_all_fail [] None start))).
vm_compute. reflexivity.
Defined.

(** X8.  In the module as written, when the research, avatar and insights
    scorers return, the result assessed at a level is rejected with the
    NameError for [json] as its error and reason, a quality score of 0, and
    the four component scores computed before the failure. *)
Theorem rejected_attempt_keeps_four_scores
  (analysis : dict) (lvl : Level) (ts : string) (s2 s3 s4 : Q) :
  Scorers._validate_research_flexible analysis (validation_levels lvl) = Ok s2 ->
  Scorers._validate_avatar_flexible analysis (validation_levels lvl) = Ok s3 ->
  Scorers._validate_insights_flexible analysis (validation_levels lvl) = Ok s4 ->
  Validator.assess module_globals analysis lvl ts
  = name_error_result lvl ts
      (Scorers._validate_structure_flexible analysis (validation_levels lvl))
      s2 s3 s4.
Proof.
intros H2 H3 H4. unfold Validator.assess, Validator.scoring.
unfold Prog.try_except, Prog.bind, Prog.lift, Prog.ret, Prog.modify.
rewrite H2, H3, H4. reflexivity.
Qed.

Lemma rejected_attempt_keeps_four_scores_witness :
  component_scores (Validator.assess module_globals [] STRICT "t")
  = [("structure", Scorers._validate_structure_flexible []
                     (validation_levels STRICT));
     ("research", 20%Q); ("avatar", 0%Q); ("insights", 10%Q)].
Proof.
rewrite (rejected_attempt_keeps_four_scores [] STRICT "t" 20 0 10
           eq_refl eq_refl eq_refl).
reflexivity.
Defined.

(** X9.  In the module as written, with a collaborator that never raises,
    one validation reads the clock five times and files five records, in this
    order: the rejected results of STRICT, MODERATE, FLEXIBLE and EMERGENCY,
    each stamped with its own clock reading, and the emergency verdict,
    which it returns. *)
Theorem validate_module_trace
  (env : Env) (analysis : dict) (session_id : option string) (w : World) :
  quiet env ->
  let t := ticks w in
  Validator.validate_with_progressive_tolerance module_globals env analysis
    session_id w
  = (Ok (Validator.emergency_verdict (clock env (4 + t))),
     {| ticks := 5 + t;
        journal :=
          (journal w ++
           [attempt_call STRICT
              (Validator.assess module_globals analysis STRICT (clock env t));
            attempt_call MODERATE
              (Validator.assess module_globals analysis MODERATE
                 (clock env (1 + t)));
            attempt_call FLEXIBLE
              (Validator.assess module_globals analysis FLEXIBLE
                 (clock env (2 + t)));
            attempt_call EMERGENCY
              (Validator.assess module_globals analysis EMERGENCY
                 (clock env (3 + t)));
            emergency_call (clock env (4 + t))])%list |}).
Proof.
intros Hq t.
unfold Validator.validate_with_progressive_tolerance, Prog.try_except,
  Validator.validation_order.
cbn [Validator.try_levels].
unfold Prog.bind, Validator._validate_at_level, now, Prog.ret,
  Validator._create_emergency_validation, salvar_etapa, invoke.
cbn [Prog.bind ticks journal].
repeat (rewrite level_met_valid, level_met_module; rewrite Hq;
        cbn [ticks journal]).
unfold Prog.bind, now, Prog.ret. cbn [ticks journal].
rewrite Hq. cbn [ticks journal].
rewrite <- !app_assoc. reflexivity.
Qed.

Lemma validate_module_trace_witness :
  map call_nome
    (journal (snd (Validator.validate_with_progressive_tolerance module_globals
                     env_quiet sample_analysis None start)))
  = ["validacao_tentativa_strict"; "validacao_tentativa_moderate";
     "validacao_tentativa_flexible"; "validacao_tentativa_emergency";
     "validacao_emergencia"].
Proof.
rewrite (validate_module_trace env_quiet sample_analysis None start).
- reflexivity.
- intros j c. reflexivity.
Defined.

(** X10.  The forced pass does not look at the analysis.  It files one
    record, "validacao_forcada"; if the collaborator accepts it the result
    is a valid verdict of level FORCED_PASS with quality score 50 whose
    reason is the one given, and if the collaborator raises, that exception
    leaves the call. *)
Theorem force_validation_pass_spec
  (env : Env) (analysis analysis' : dict) (reason : string) (w : World) :
  Validator.force_validation_pass env analysis reason w
  = Validator.force_validation_pass env analysis' reason w /\
  filed w (snd (Validator.force_validation_pass env analysis reason w))
    ["validacao_forcada"] /\
  match fst (Validator.force_validation_pass env analysis reason w) with
  | Ok v =>
      valid v = true /\ level v = "FORCED_PASS" /\ quality_score v = 50%Q /\
      primary_reason v = Literal reason /\
      warnings v = [Literal ("Validação forçada: " ++ reason)] /\
      timestamp v = clock env (ticks w) /\
      collaborator env (journal w)
        (salvar_etapa_call "validacao_forcada" (Final v) "analise_completa")
      = None
  | Raise e =>
      exists v,
        collaborator env (journal w)
          (salvar_etapa_call "validacao_forcada" (Final v) "analise_completa")
        = Some e
  end.
Proof.
split; [reflexivity |].
unfold Validator.force_validation_pass, Prog.bind, now, salvar_etapa, invoke,
  Prog.ret.
cbn [ticks journal].
destruct (collaborator env (journal w) _) as [e |] eqn:Ec; cbn [fst snd].
- split; [unfold filed; cbn [journal]; rewrite map_app; reflexivity |].
  eexists. exact Ec.
- split; [unfold filed; cbn [journal]; rewrite map_app; reflexivity |].
  repeat split. exact Ec.
Qed.

(** * Validating one component *)

Section ComponentFacts.
Import Components.

Lemma has_three_cases (d : dict) (key : string) :
  let x := Py.get d key VNone in
  (Py.truthy x = true /\ sized x = false /\ has_three d key = Raise TypeError)
  \/ ((Py.truthy x = true -> sized x = true) /\
      exists b, has_three d key = Ok b).
Proof.
cbv zeta. unfold has_three.
destruct (Py.truthy (Py.get d key VNone)) eqn:Et.
- destruct (Py.get d key VNone) as [| b | z | q | s | l | e];
    cbn [Py.len rbind sized];
    try (left; repeat split; reflexivity);
    right; (split; [reflexivity | eexists; reflexivity]).
- right. split; [discriminate | eexists; reflexivity].
Qed.

Lemma avatar_specific_bounds (avatar_data : value) (bonus : Q) :
  _validate_avatar_specific avatar_data = Ok bonus ->
  0 <= bonus /\ bonus <= 25.
Proof.
unfold _validate_avatar_specific.
destruct avatar_data as [| b | z | q | s | l | d];
  try (intros H; injection H as <-; split; unfold Qle; cbn; lia).
destruct (has_three d "dores_viscerais") as [b1 | e]; cbn [rbind];
  [| discriminate].
destruct (has_three d "desejos_secretos") as [b2 | e]; cbn [rbind];
  [| discriminate].
intros H. injection H as <-.
destruct (Py.truthy _), b1, b2; split; vm_compute; discriminate.
Qed.

Lemma drivers_specific_bounds (drivers_data : value) :
  0 <= _validate_drivers_specific drivers_data /\
  _validate_drivers_specific drivers_data <= 15.
Proof.
unfold _validate_drivers_specific.
destruct (negb (Py.truthy drivers_data)); [split; vm_compute; discriminate |].
destruct drivers_data as [| b | z | q | s | l | d];
  try (split; vm_compute; discriminate).
- destruct (2 <=? length l)%nat; split; vm_compute; discriminate.
- destruct (Py.lookup d "drivers_customizados") as [x |];
    [| split; vm_compute; discriminate].
  destruct x as [| b | z | q | s | l | e];
    try (split; vm_compute; discriminate).
  destruct (2 <=? length l)%nat; split; vm_compute; discriminate.
Qed.

Lemma insights_specific_bounds (insights_data : value) :
  0 <= _validate_insights_specific insights_data /\
  _validate_insights_specific insights_data <= 15.
Proof.
unfold _validate_insights_specific.
destruct insights_data as [| b | z | q | s | l | d];
  try (split; vm_compute; discriminate).
destruct (5 <=? length l)%nat; [split; vm_compute; discriminate |].
destruct (3 <=? length l)%nat; [split; vm_compute; discriminate |].
destruct (1 <=? length l)%nat; split; vm_compute; discriminate.
Qed.

Lemma content_points_bounds (component_data : value) :
  50 <= content_points component_data 50 /\
  content_points component_data 50 <= 75.
Proof.
unfold content_points.
destruct component_data as [| b | z | q | s | l | d];
  try (split; vm_compute; discriminate).
- destruct (50 <? String.length s)%nat; split; vm_compute; discriminate.
- destruct (0 <? length l)%nat; split; vm_compute; discriminate.
- destruct (0 <? length d)%nat; split; vm_compute; discriminate.
Qed.

End ComponentFacts.

(** X11.  Whenever the validation of one component returns, it reports
    [can_continue] as true and [valid] exactly when the component is not
    empty.  An empty component scores 0; any other component scores between
    50 and 100, the cap at 100 never cuts anything off, and its reason never
    reads "Limitado". *)
Theorem component_result_shape
  (component_name : string) (component_data : value)
  (r : Components.ComponentResult) :
  Components.validate_component_individually component_name component_data
  = Ok r ->
  Components.c_can_continue r = true /\
  Components.c_valid r = Py.truthy component_data /\
  if Py.truthy component_data
  then 50 <= Components.c_score r /\ Components.c_score r <= 100 /\
       Components.c_reason r
       = Components.ScoreReason (Components.c_score r) true /\
       Components.c_recommendation r = "Válido para prosseguir"
  else Components.c_score r = 0%Q /\
       Components.c_reason r = Components.ComponenteVazio.
Proof.
unfold Components.validate_component_individually.
destruct (Py.truthy component_data) eqn:Et; cbn [negb].
2:{ intros H. injection H as <-. repeat split. }
pose proof (content_points_bounds component_data) as (Hlo & Hhi).
set (base := Components.content_points component_data 50) in *.
assert (Hfinish : forall score,
           50 <= score -> score <= 100 ->
           forall r0,
             (let is_valid := Qle_bool 40 score in
              Ok {| Components.c_valid := is_valid;
                    Components.c_score := Py.min score 100;
                    Components.c_reason := Components.ScoreReason score is_valid;
                    Components.c_can_continue := true;
                    Components.c_recommendation :=
                      if is_valid then "Válido para prosseguir"
                      else "Limitado mas pode prosseguir" |}) = Ok r0 ->
             Components.c_can_continue r0 = true /\
             Components.c_valid r0 = true /\
             50 <= Components.c_score r0 /\ Components.c_score r0 <= 100 /\
             Components.c_reason r0
             = Components.ScoreReason (Components.c_score r0) true /\
             Components.c_recommendation r0 = "Válido para prosseguir").
{ intros score H1 H2 r0. cbv zeta.
  assert (Hv : Qle_bool 40 score = true) by (apply Qle_bool_iff; lra).
  rewrite Hv, (min_under score 100 H2).
  intros H. injection H as <-. cbn. repeat split; assumption. }
destruct (String.eqb component_name "avatar_ultra_detalhado").
- destruct (Components._validate_avatar_specific component_data)
    as [bonus | e] eqn:Eb; cbn [rbind]; [| discriminate].
  destruct (avatar_specific_bounds _ _ Eb).
  apply Hfinish; lra.
- destruct (String.eqb component_name "drivers_mentais_customizados").
  + cbn [rbind].
    destruct (drivers_specific_bounds component_data).
    apply Hfinish; lra.
  + destruct (String.eqb component_name "insights_exclusivos"); cbn [rbind].
    * destruct (insights_specific_bounds component_data).
      apply Hfinish; lra.
    * apply Hfinish; lra.
Qed.

Lemma component_result_shape_witness :
  exists r,
    Components.validate_component_individually "insights_exclusivos"
      (VList [VStr "um"; VStr "dois"; VStr "tres"]) = Ok r /\
    Components.c_valid r = true /\
    Components.c_score r == 85 /\
    Components.c_can_continue r = true.
Proof.
destruct (Components.validate_component_individually "insights_exclusivos"
            (VList [VStr "um"; VStr "dois"; VStr "tres"])) as [r | e] eqn:E;
  [| vm_compute in E; discriminate E].
destruct (component_result_shape _ _ r E) as (Hc & Hv & _).
exists r. split; [reflexivity |]. split; [exact Hv |].
split; [| exact Hc].
vm_compute in E. injection E as <-. reflexivity.
Defined.

(** X12.  The validation of one component raises exactly when it is asked
    about the avatar, the component is a map, and its "dores_viscerais" or
    "desejos_secretos" entry is present, not empty and without a length (a
    number or a boolean); the exception is a TypeError.  In every other case
    it returns. *)
Theorem component_validation_failure
  (component_name : string) (component_data : value) :
  match Components.validate_component_individually component_name
          component_data with
  | Ok _ =>
      forall d,
        component_name = "avatar_ultra_detalhado" ->
        component_data = VDict d ->
        Py.truthy component_data = true ->
        length_missing d "dores_viscerais" = false /\
        length_missing d "desejos_secretos" = false
  | Raise e =>
      e = TypeError /\
      component_name = "avatar_ultra_detalhado" /\
      exists d,
        component_data = VDict d /\
        (length_missing d "dores_viscerais" = true \/
         length_missing d "desejos_secretos" = true)
  end.
Proof.
unfold Components.validate_component_individually.
destruct (Py.truthy component_data) eqn:Et; cbn [negb].
2:{ intros d _ _ H. discriminate H. }
destruct (String.eqb_spec component_name "avatar_ultra_detalhado") as [-> | Hn].
- destruct component_data as [| b | z | q | s | l | d];
    try (cbn [Components._validate_avatar_specific rbind];
         intros d0 _ H; discriminate H).
  unfold Components._validate_avatar_specific, length_missing.
  destruct (has_three_cases d "dores_viscerais")
    as [(T1 & S1 & H1) | (S1 & b1 & H1)]; rewrite H1; cbn [rbind].
  + split; [reflexivity |]. split; [reflexivity |].
    exists d. split; [reflexivity |]. left. rewrite T1, S1. reflexivity.
  + destruct (has_three_cases d "desejos_secretos")
      as [(T2 & S2 & H2) | (S2 & b2 & H2)]; rewrite H2; cbn [rbind].
    * split; [reflexivity |]. split; [reflexivity |].
      exists d. split; [reflexivity |]. right. rewrite T2, S2. reflexivity.
    * intros d0 _ Hd _. injection Hd as <-.
      split.
      -- destruct (Py.truthy (Py.get d "dores_viscerais" VNone));
           [rewrite (S1 eq_refl) |]; reflexivity.
      -- destruct (Py.truthy (Py.get d "desejos_secretos" VNone));
           [rewrite (S2 eq_refl) |]; reflexivity.
- destruct (String.eqb component_name "drivers_mentais_customizados");
    [cbn [rbind]; intros d H; contradiction |].
  destruct (String.eqb component_name "insights_exclusivos");
    cbn [rbind]; intros d H; contradiction.
Qed.

Lemma component_validation_failure_witness :
  Components.validate_component_individually "avatar_ultra_detalhado"
    (VDict [("perfil_demografico", VStr "adultos");
            ("dores_viscerais", VInt 5)])
  = Raise TypeError /\
  exists r,
    Components.validate_component_individually "avatar_ultra_detalhado"
      (VDict [("perfil_demografico", VStr "adultos");
              ("dores_viscerais", VList [VStr "a"; VStr "b"; VStr "c"])])
    = Ok r /\ Components.c_score r == 90.
Proof.
split.
- pose proof (component_validation_failure "avatar_ultra_detalhado"
                (VDict [("perfil_demografico", VStr "adultos");
                        ("dores_viscerais", VInt 5)])) as H.
  destruct (Components.validate_component_individually _ _) as [r | e].
  + destruct (H _ eq_refl eq_refl eq_refl) as (H1 & _). discriminate H1.
  + destruct H as (-> & _). reflexivity.
- eexists. split; [vm_compute; reflexivity | reflexivity].
Defined.

(** * Further properties of the cleaning *)

Section CleanerFacts.
Import Cleaner.
Variable fr : Q -> string.

Lemma keys_clear_dict (d : dict) :
  keys_clear fr (VDict d)
  = forallb (fun kv => negb (flagged (fst kv)) && keys_clear fr (snd kv)) d.
Proof.
induction d as [| [k x] rest IH]; [reflexivity |].
cbn [forallb fst snd]. rewrite <- IH. reflexivity.
Qed.

Lemma keys_clear_list (l : list value) :
  keys_clear fr (VList l)
  = forallb (fun x => negb (flagged (py_str fr x)) && keys_clear fr x) l.
Proof.
induction l as [| x rest IH]; [reflexivity |].
cbn [forallb]. rewrite <- IH. reflexivity.
Qed.

Lemma clean_recursive_clear (obj : value) :
  keys_clear fr (clean_recursive fr obj) = true.
Proof.
induction obj as [| b | z | q | s | l IH | d IH] using value_nested_ind;
  try reflexivity.
- rewrite clean_list, keys_clear_list.
  induction l as [| x rest IHl]; [reflexivity |].
  inversion IH as [| ? ? Hx Hrest]; subst.
  cbn [clean_items].
  destruct (flagged (py_str fr x)) eqn:Ex; [exact (IHl Hrest) |].
  cbn [forallb]. rewrite Hx, (IHl Hrest).
  rewrite (clean_kept_item fr x Ex), Ex. reflexivity.
- rewrite clean_dict, keys_clear_dict.
  induction d as [| [k x] rest IHd]; [reflexivity |].
  inversion IH as [| ? ? Hx Hrest]; subst. cbn [snd] in Hx.
  cbn [clean_entries].
  destruct (flagged k) eqn:Ek; [exact (IHd Hrest) |].
  cbn [forallb fst snd]. rewrite Ek, Hx, (IHd Hrest). reflexivity.
Qed.

Lemma flagged_eqb (k k' : string) :
  String.eqb k k' = true -> flagged k = flagged k'.
Proof. intros H. apply String.eqb_eq in H. now subst. Qed.

(** Looking a key up in a cleaned map. *)
Lemma lookup_clean_entries (d : dict) (key : string) :
  Py.lookup (clean_entries fr d) key
  = if flagged key then None
    else option_map (clean_recursive fr) (Py.lookup d key).
Proof.
induction d as [| [k x] rest IH]; cbn [clean_entries Py.lookup].
- destruct (flagged key); reflexivity.
- destruct (flagged k) eqn:Ek.
  + rewrite IH. destruct (String.eqb k key) eqn:Ekey; [| reflexivity].
    rewrite <- (flagged_eqb k key Ekey), Ek. reflexivity.
  + cbn [Py.lookup]. destruct (String.eqb k key) eqn:Ekey.
    * rewrite <- (flagged_eqb k key Ekey), Ek. reflexivity.
    * exact IH.
Qed.

Lemma lookup_set_same {A} (d : list (string * A)) (key : string) (x : A) :
  Py.lookup (Py.set d key x) key = Some x.
Proof.
induction d as [| [k y] rest IH]; cbn [Py.set Py.lookup].
- now rewrite String.eqb_refl.
- destruct (String.eqb k key) eqn:E; cbn [Py.lookup]; rewrite E;
    [reflexivity | exact IH].
Qed.

Lemma lookup_set_other {A} (d : list (string * A)) (key key' : string) (x : A) :
  key' <> key ->
  Py.lookup (Py.set d key x) key' = Py.lookup d key'.
Proof.
intros Hne. induction d as [| [k y] rest IH]; cbn [Py.set Py.lookup].
- destruct (String.eqb_spec key key'); [congruence | reflexivity].
- destruct (String.eqb_spec k key) as [-> | Hk]; cbn [Py.lookup].
  + destruct (String.eqb_spec key key'); [congruence | reflexivity].
  + destruct (String.eqb k key'); [reflexivity | exact IH].
Qed.

Lemma clean_entries_length (d : dict) :
  (length (clean_entries fr d) <= length d)%nat.
Proof.
induction d as [| [k x] rest IH]; cbn [clean_entries length]; [lia |].
destruct (flagged k); cbn [length]; lia.
Qed.

End CleanerFacts.

(** X13.  Whatever is cleaned comes out clear: at every depth of the cleaned
    value no map key contains a banned marker and no list item has a text
    that contains one. *)
Theorem cleaned_value_is_clear (fr : Q -> string) (obj : value) (d : dict) :
  keys_clear fr (Cleaner.clean_recursive fr obj) = true /\
  keys_clear fr (VDict (Cleaner.clean_entries fr d)) = true.
Proof.
split; [apply clean_recursive_clear |].
rewrite <- clean_dict. apply clean_recursive_clear.
Qed.

(** X14.  The map returned by the cleaning always has the entry
    [validation_metadata], written by the cleaning itself (an entry of that
    name in the input is replaced).  Under any other key it has no entry if
    the key contains a banned marker, and otherwise the cleaned value of the
    input's entry, if the input has one. *)
Theorem cleaned_analysis_lookup
  (env : Env) (analysis : dict) (w : World) (key : string) :
  exists cleaned w',
    Cleaner.clean_analysis_for_output_flexible env analysis w
    = (Ok cleaned, w') /\
    Py.lookup cleaned "validation_metadata"
    = Some (Cleaner.validation_metadata (float_repr env) (clock env (ticks w))
              analysis (Cleaner.clean_entries (float_repr env) analysis)) /\
    (key <> "validation_metadata" ->
     Py.lookup cleaned key
     = if Cleaner.flagged key then None
       else option_map (Cleaner.clean_recursive (float_repr env))
              (Py.lookup analysis key)).
Proof.
eexists _, _. split; [reflexivity |].
split; [apply lookup_set_same |].
intros Hne. rewrite lookup_set_other by exact Hne.
apply lookup_clean_entries.
Qed.

Lemma cleaned_analysis_lookup_witness :
  exists cleaned,
    fst (Cleaner.clean_analysis_for_output_flexible env_quiet
           [("falha_api", VStr "timeout"); ("nota", VList [VStr "ok"])] start)
    = Ok cleaned /\
    Py.lookup cleaned "falha_api" = None /\
    Py.lookup cleaned "nota" = Some (VList [VStr "ok"]).
Proof.
destruct (cleaned_analysis_lookup env_quiet
            [("falha_api", VStr "timeout"); ("nota", VList [VStr "ok"])]
            start "falha_api") as (c1 & w1 & H1 & _ & L1).
destruct (cleaned_analysis_lookup env_quiet
            [("falha_api", VStr "timeout"); ("nota", VList [VStr "ok"])]
            start "nota") as (c2 & w2 & H2 & _ & L2).
rewrite H1 in H2. injection H2 as <- _.
exists c1. rewrite H1. split; [reflexivity |]. split.
- rewrite L1 by discriminate. reflexivity.
- rewrite L2 by discriminate. reflexivity.
Defined.

(** X15.  An analysis whose text form contains no banned marker comes back
    unchanged apart from the metadata entry, and the metadata then records
    the same size before and after; in general the cleaned map never has more
    entries than the input. *)
Theorem clean_analysis_keeps_clear_input
  (env : Env) (analysis : dict) (w : World) :
  let fr := float_repr env in
  (length (Cleaner.clean_entries fr analysis) <= length analysis)%nat /\
  (Cleaner.flagged (py_str fr (VDict analysis)) = false ->
   Cleaner.clean_entries fr analysis = analysis /\
   exists ts w',
     Cleaner.clean_analysis_for_output_flexible env analysis w
     = (Ok (Py.set analysis "validation_metadata"
              (Cleaner.validation_metadata fr ts analysis analysis)), w')).
Proof.
intros fr. split; [apply clean_entries_length |].
intros Hclear.
assert (Hid : Cleaner.clean_entries fr analysis = analysis).
{ pose proof (clean_clear_repr fr (VDict analysis) Hclear) as H.
  rewrite clean_dict in H. injection H as H. exact H. }
split; [exact Hid |].
unfold Cleaner.clean_analysis_for_output_flexible. fold fr. rewrite Hid.
eexists _, _. reflexivity.
Qed.

Lemma clean_analysis_keeps_clear_input_witness :
  Cleaner.clean_entries plain_float sample_analysis = sample_analysis.
Proof.
apply (proj2 (clean_analysis_keeps_clear_input env_quiet sample_analysis start)).
vm_compute. reflexivity.
Defined.

(** * Scores of an approved verdict, eligibility and failure modes *)

Section ScoreCaps.
Import Scorers.

Lemma research_cap (analysis : dict) (th : Thresholds) (s : Q) :
  _validate_research_flexible analysis th = Ok s -> s <= 100.
Proof.
unfold _validate_research_flexible.
destruct (negb (Py.truthy _)); [intros H; injection H as <-; lra |].
destruct (Py.get_attr _ "estatisticas" _) as [stats | e]; cbn [rbind];
  [| discriminate].
destruct (Py.get_attr stats "total_conteudo" _) as [v1 | e]; cbn [rbind];
  [| discriminate].
destruct (Py.num v1) as [tc | e]; cbn [rbind]; [| discriminate].
destruct (Py.get_attr stats "fontes_unicas" _) as [v2 | e]; cbn [rbind];
  [| discriminate].
destruct (Py.num v2) as [us | e]; cbn [rbind]; [| discriminate].
destruct (Py.get_attr stats "qualidade_media" _) as [v3 | e]; cbn [rbind];
  [| discriminate].
destruct (Py.num v3) as [q | e]; cbn [rbind]; [| discriminate].
intros H. injection H as <-. apply min_le_r.
Qed.

Lemma avatar_cap (analysis : dict) (th : Thresholds) (s : Q) :
  _validate_avatar_flexible analysis th = Ok s -> s <= 100.
Proof.
unfold _validate_avatar_flexible.
destruct (negb (Py.truthy _)); [intros H; injection H as <-; lra |].
destruct (for_each _ _ _) as [score | e]; cbn [rbind]; [| discriminate].
intros H. injection H as <-. apply min_le_r.
Qed.

Lemma insights_cap (analysis : dict) (th : Thresholds) (s : Q) :
  _validate_insights_flexible analysis th = Ok s -> s <= 100.
Proof.
unfold _validate_insights_flexible.
destruct (Py.get analysis "insights_exclusivos" (VList []))
  as [| b | z | q | t | l | d];
  try (intros H; injection H as <-; lra).
destruct (negb (Py.truthy (VList l))); [intros H; injection H as <-; lra |].
destruct (lens l) as [sizes | e]; cbn [rbind]; [| discriminate].
intros H. injection H as <-. apply min_le_r.
Qed.

Lemma simulation_cap (g : Globals) (analysis : dict) (th : Thresholds) (s : Q) :
  _detect_simulation_with_tolerance g analysis th = Ok s -> 10 <= s /\ s <= 100.
Proof.
unfold _detect_simulation_with_tolerance.
destruct (g_json g) as [dumps |]; [| discriminate].
destruct (dumps analysis) as [text | e]; cbn [rbind]; [| discriminate].
intros H. injection H as <-.
destruct (simulation_tier_cases (simulation_count (Text.lower text))
            (simulation_tolerance th)) as [H | [H | [H | H]]];
  repeat match goal with
    | H : _ /\ _ |- _ => destruct H
    end;
  match goal with
  | E : simulation_tier _ _ = _ |- _ => rewrite E
  end; split; unfold Qle; cbn; lia.
Qed.

Lemma structure_cap (analysis : dict) (th : Thresholds) :
  0 <= _validate_structure_flexible analysis th /\
  _validate_structure_flexible analysis th <= 100.
Proof.
unfold _validate_structure_flexible, essential_sections, optional_sections.
cbn [fold_left].
destruct (section_filled analysis "avatar_ultra_detalhado");
  destruct (section_filled analysis "drivers_mentais_customizados");
  destruct (section_filled analysis "provas_visuais_sugeridas");
  destruct (section_filled analysis "sistema_anti_objecao");
  destruct (section_filled analysis "pre_pitch_invisivel");
  destruct (section_filled analysis "insights_exclusivos");
  split; vm_compute; discriminate.
Qed.

Lemma mean_five_cap (a b c d e : Q) :
  a <= 100 -> b <= 100 -> c <= 100 -> d <= 100 -> e <= 100 ->
  Validator.mean [a; b; c; d; e] <= 100.
Proof.
intros.
setoid_replace 100 with (Validator.mean [100; 100; 100; 100; 100])
  by (vm_compute; reflexivity).
apply mean_five_monotone; assumption.
Qed.

End ScoreCaps.

(** X16.  Whatever the binding of [json]: a verdict that the validation
    returns with a level other than the emergency override is valid, carries
    the five named component scores, none above 100, has their arithmetic
    mean as quality score, and that quality score lies between the level's
    minimum and 100. *)
Theorem approved_verdict_scores
  (g : Globals) (env : Env) (analysis : dict) (session_id : option string)
  (w : World) (v : Verdict) (w' : World) :
  Validator.validate_with_progressive_tolerance g env analysis session_id w
  = (Ok v, w') ->
  level v <> "EMERGENCY_OVERRIDE" ->
  exists lvl,
    level v = level_name lvl /\
    valid v = true /\
    five_components v /\
    Forall (fun entry => snd entry <= 100) (component_scores v) /\
    quality_score v = Validator.mean (map snd (component_scores v)) /\
    min_quality_score (validation_levels lvl) <= quality_score v /\
    quality_score v <= 100 /\
    recommendation v = Some (Validator._get_level_recommendation lvl).
Proof.
intros Hrun Hlevel.
apply validate_returns in Hrun.
destruct Hrun as [Hloop | (ts & ->)]; [| exfalso; apply Hlevel; reflexivity].
apply try_levels_spec in Hloop.
destruct Hloop as (pre & lvl & post & ts & _ & _ & Hmet & -> & _).
exists lvl. unfold five_components.
cbn [level valid component_scores quality_score recommendation with_approval].
rewrite <- (level_met_valid g analysis lvl ts) in Hmet.
destruct (assess_cases g analysis lvl ts)
  as [(e & (Hv & _) & _)
     | (s2 & s3 & s4 & s5 & E2 & E3 & E4 & E5 & Hcs & Hq & Hv & Hl & _)];
  [congruence |].
cbv zeta in Hcs, Hq, Hv.
pose proof (structure_cap analysis (validation_levels lvl)) as (_ & C1).
pose proof (research_cap _ _ _ E2) as C2.
pose proof (avatar_cap _ _ _ E3) as C3.
pose proof (insights_cap _ _ _ E4) as C4.
pose proof (simulation_cap _ _ _ _ E5) as (_ & C5).
rewrite Hl, Hmet, Hcs, Hq.
split; [reflexivity |]. split; [reflexivity |]. split; [reflexivity |].
split; [repeat constructor; assumption |].
split; [reflexivity |].
split.
- rewrite Hmet in Hv. symmetry in Hv. apply Qle_bool_iff in Hv. exact Hv.
- split; [apply mean_five_cap; assumption | reflexivity].
Qed.

Lemma approved_verdict_scores_witness :
  exists v lvl,
    fst (Validator.validate_with_progressive_tolerance json_bound env_quiet
           sample_analysis None start) = Ok v /\
    level v = level_name lvl /\
    five_components v /\
    min_quality_score (validation_levels lvl) <= quality_score v /\
    quality_score v <= 100.
Proof.
destruct (Validator.validate_with_progressive_tolerance json_bound env_quiet
            sample_analysis None start) as [r w'] eqn:Hrun.
assert (Hlevel : match r with
                 | Ok v => level v = "MODERATE"
                 | Raise _ => False
                 end).
{ vm_compute in Hrun. injection Hrun as <- _. reflexivity. }
destruct r as [v | e]; [| contradiction].
destruct (approved_verdict_scores json_bound env_quiet sample_analysis None
            start v w' Hrun) as (lvl & H1 & _ & H3 & _ & _ & H6 & H7 & _).
{ rewrite Hlevel. discriminate. }
exists v, lvl. repeat split; assumption.
Defined.

(** X17.  An analysis for which the PDF decision is positive has a filled
    avatar section and a filled insights section, so its structure score is
    at least 60 under every profile. *)
Theorem pdf_eligible_structure
  (analysis : dict) (th : Thresholds) (why : string) :
  Validator.should_generate_pdf_flexible analysis = Ok (true, why) ->
  Scorers.section_filled analysis "avatar_ultra_detalhado" = true /\
  Scorers.section_filled analysis "insights_exclusivos" = true /\
  60 <= Scorers._validate_structure_flexible analysis th.
Proof.
unfold Validator.should_generate_pdf_flexible.
destruct (negb (Py.truthy (VDict analysis))); [discriminate |].
destruct (Py.truthy (Py.get analysis "avatar_ultra_detalhado" VNone)) eqn:Ea;
  cbn [negb]; [| discriminate].
destruct (Py.len (Py.get analysis "insights_exclusivos" (VList [])))
  as [n | e] eqn:En; cbn [rbind]; [| discriminate].
destruct (n <? 1)%nat eqn:Hn; [discriminate |]. intros _.
apply Nat.ltb_ge in Hn.
assert (Havatar : Scorers.section_filled analysis "avatar_ultra_detalhado" = true).
{ unfold Scorers.section_filled. unfold Py.get in Ea.
  destruct (Py.lookup analysis "avatar_ultra_detalhado"); [exact Ea |].
  discriminate Ea. }
assert (Hins : Scorers.section_filled analysis "insights_exclusivos" = true).
{ unfold Scorers.section_filled. unfold Py.get in En.
  destruct (Py.lookup analysis "insights_exclusivos") as [x |].
  - destruct x as [| b | z | q | s | l | d]; try discriminate En;
      cbn [Py.len] in En; injection En as <-; cbn [Py.truthy].
    + destruct s; [cbn in Hn; lia | reflexivity].
    + destruct l; [cbn in Hn; lia | reflexivity].
    + destruct d; [cbn in Hn; lia | reflexivity].
  - cbn in En. injection En as <-. lia. }
split; [exact Havatar |]. split; [exact Hins |].
unfold Scorers._validate_structure_flexible, Scorers.essential_sections,
  Scorers.optional_sections.
cbn [fold_left]. rewrite Havatar, Hins.
destruct (Scorers.section_filled analysis "drivers_mentais_customizados");
  destruct (Scorers.section_filled analysis "provas_visuais_sugeridas");
  destruct (Scorers.section_filled analysis "sistema_anti_objecao");
  destruct (Scorers.section_filled analysis "pre_pitch_invisivel");
  vm_compute; discriminate.
Qed.

Lemma pdf_eligible_structure_witness :
  60 <= Scorers._validate_structure_flexible sample_analysis
          (validation_levels STRICT).
Proof.
apply (pdf_eligible_structure sample_analysis (validation_levels STRICT)
         "Análise adequada para PDF (critérios flexíveis)").
reflexivity.
Defined.

(** X18.  The research scorer fails on wrong shapes: with a research section
    that is present, not empty and not a map, or with statistics that are
    present and not a map, it raises an AttributeError; with statistics in a
    map, a total_conteudo, fontes_unicas or qualidade_media that is not a
    number makes it raise a TypeError. *)
Theorem research_failure_modes (analysis : dict) (th : Thresholds) :
  let research := Py.get analysis "pesquisa_web_massiva" (VDict []) in
  Py.truthy research = true ->
  ((forall d, research <> VDict d) ->
   Scorers._validate_research_flexible analysis th = Raise AttributeError) /\
  (forall d,
     research = VDict d ->
     ((forall stats, Py.get d "estatisticas" (VDict []) <> VDict stats) ->
      Scorers._validate_research_flexible analysis th = Raise AttributeError) /\
     (forall stats,
        Py.get d "estatisticas" (VDict []) = VDict stats ->
        (exists key,
           In key ["total_conteudo"; "fontes_unicas"; "qualidade_media"] /\
           Py.num (Py.get stats key (VInt 0)) = Raise TypeError) ->
        Scorers._validate_research_flexible analysis th = Raise TypeError)).
Proof.
intros research Ht. subst research.
unfold Scorers._validate_research_flexible. rewrite Ht. cbn [negb].
split.
- intros Hnot.
  destruct (Py.get analysis "pesquisa_web_massiva" (VDict []))
    as [| b | z | q | s | l | d]; try reflexivity.
  exfalso. exact (Hnot d eq_refl).
- intros d ->. cbn [Py.get_attr rbind]. split.
  + intros Hnot.
    destruct (Py.get d "estatisticas" (VDict []))
      as [| b | z | q | s | l | stats]; try reflexivity.
    exfalso. exact (Hnot stats eq_refl).
  + intros stats -> (key & Hin & Hnum). cbn [Py.get_attr rbind].
    assert (Hraise : forall v, (exists q, Py.num v = Ok q)
                               \/ Py.num v = Raise TypeError).
    { intros v. destruct v; cbn; eauto. }
    destruct Hin as [<- | [<- | [<- | []]]].
    * rewrite Hnum. reflexivity.
    * destruct (Hraise (Py.get stats "total_conteudo" (VInt 0)))
        as [(q1 & ->) | ->]; [| reflexivity].
      cbn [rbind]. rewrite Hnum. reflexivity.
    * destruct (Hraise (Py.get stats "total_conteudo" (VInt 0)))
        as [(q1 & ->) | ->]; [| reflexivity].
      cbn [rbind].
      destruct (Hraise (Py.get stats "fontes_unicas" (VInt 0)))
        as [(q2 & ->) | ->]; [| reflexivity].
      cbn [rbind]. rewrite Hnum. reflexivity.
Qed.

Lemma research_failure_modes_witness :
  Scorers._validate_research_flexible
    [("pesquisa_web_massiva",
       VDict [("estatisticas", VDict [("fontes_unicas", VStr "muitas")])])]
    (validation_levels FLEXIBLE) = Raise TypeError.
Proof.
destruct (research_failure_modes
            [("pesquisa_web_massiva",
               VDict [("estatisticas", VDict [("fontes_unicas", VStr "muitas")])])]
            (validation_levels FLEXIBLE) eq_refl) as (_ & H).
destruct (H _ eq_refl) as (_ & H').
apply (H' _ eq_refl).
exists "fontes_unicas". split; [cbn; auto | reflexivity].
Defined.

(** * The agent test route *)

Section RouteFacts.
Import Routes.
Local Open Scope list_scope.

Lemma lookup_absent {A} (d : list (string * A)) (key : string) :
  ~ In key (map fst d) -> Py.lookup d key = None.
Proof.
induction d as [| [k x] rest IH]; cbn [Py.lookup map fst In]; [reflexivity |].
intros H. destruct (String.eqb_spec k key) as [-> | Hne].
- exfalso. apply H. left. reflexivity.
- apply IH. intros Hin. apply H. right. exact Hin.
Qed.

Lemma set_absent {A} (d : list (string * A)) (key : string) (x : A) :
  ~ In key (map fst d) -> Py.set d key x = d ++ [(key, x)].
Proof.
induction d as [| [k y] rest IH]; cbn [Py.set map fst In app]; [reflexivity |].
intros H. destruct (String.eqb_spec k key) as [-> | Hne].
- exfalso. apply H. left. reflexivity.
- rewrite IH; [reflexivity |]. intros Hin. apply H. right. exact Hin.
Qed.

(** With distinct names, the loop stores one report per agent, in order. *)
Lemma test_all_from (agents : list (string * agent)) (test_data : value) :
  forall acc : list (string * agent_report),
    NoDup (map fst acc ++ map fst agents) ->
    fold_left (fun results entry =>
                 Py.set results (fst entry) (test_one (snd entry) test_data))
      agents acc
    = acc ++ map (fun entry => (fst entry, test_one (snd entry) test_data))
               agents.
Proof.
induction agents as [| [name a] rest IH]; intros acc Hnd; cbn [fold_left map].
- now rewrite app_nil_r.
- cbn [fst snd map] in *.
  assert (Hfresh : ~ In name (map fst acc)).
  { intros Hin. apply NoDup_remove_2 in Hnd. apply Hnd.
    apply in_or_app. left. exact Hin. }
  rewrite (set_absent acc name _ Hfresh).
  rewrite IH.
  + rewrite <- app_assoc. reflexivity.
  + rewrite map_app. cbn [map fst]. rewrite <- app_assoc. exact Hnd.
Qed.

Lemma count_success_map (agents : list (string * agent)) (test_data : value) :
  length (filter (fun r : string * agent_report => success (snd r))
            (map (fun entry : string * agent =>
                    (fst entry, test_one (snd entry) test_data)) agents))
  = length (filter (fun entry : string * agent =>
                      success (test_one (snd entry) test_data)) agents).
Proof.
induction agents as [| [name a] rest IH]; [reflexivity |].
cbn [map filter fst snd].
destruct (success (test_one a test_data)); cbn [length]; now rewrite IH.
Qed.

End RouteFacts.

(** X19.  Testing all agents tests every registered agent once, whatever the
    others do: with distinct names the response is 200 and holds one report
    per agent, in registry order, a failing agent (one that raises, or
    returns something that is not a map) being reported under its name
    without stopping the loop; [total_agents] is the number of registered
    agents and [successful_agents] the number of those that succeeded, so
    never more. *)
Theorem all_agents_tested
  (agents : list (string * Routes.agent)) (data : dict) :
  NoDup (map fst agents) ->
  Routes.is_all (Py.get data "agent" (VStr "all")) = true ->
  let test_data := Py.get data "test_data" Routes.default_test_data in
  let reports :=
    map (fun entry => (fst entry, Routes.test_one (snd entry) test_data))
      agents in
  let successes :=
    length (filter (fun entry =>
                      Routes.success (Routes.test_one (snd entry) test_data))
              agents) in
  Routes.test_psychological_agents agents (Ok (VDict data))
  = (Routes.AllTested reports (length agents) successes, 200%nat) /\
  (successes <= length agents)%nat /\
  map fst reports = map fst agents.
Proof.
intros Hnd Hall test_data reports successes.
subst reports successes test_data.
unfold Routes.test_psychological_agents.
cbn [rbind Py.get_attr]. rewrite Hall.
unfold Routes.test_all.
rewrite (test_all_from agents _ []) by exact Hnd.
cbn [app]. rewrite count_success_map.
split; [reflexivity |]. split.
- apply filter_length_le.
- rewrite map_map. reflexivity.
Qed.

Lemma all_agents_tested_witness :
  Routes.test_psychological_agents
    [("arqueologist", fun _ => Ok (VDict [("status", VStr "ok")]));
     ("visceral_master", fun _ => Raise (CollaboratorError "sem API"));
     ("drivers_architect", fun _ => Ok (VStr "texto"))]
    (Ok (VDict [("test_data", VDict [("segmento", VStr "Saude")])]))
  = (Routes.AllTested
       [("arqueologist",
          Routes.Succeeded (VDict [("status", VStr "ok")]) (VStr "ok"));
        ("visceral_master", Routes.Failed (CollaboratorError "sem API"));
        ("drivers_architect", Routes.Failed AttributeError)]
       3 1, 200%nat).
Proof.
apply (all_agents_tested
         [("arqueologist", fun _ => Ok (VDict [("status", VStr "ok")]));
          ("visceral_master", fun _ => Raise (CollaboratorError "sem API"));
          ("drivers_architect", fun _ => Ok (VStr "texto"))]
         [("test_data", VDict [("segmento", VStr "Saude")])]).
- repeat constructor; cbn; intuition discriminate.
- reflexivity.
Defined.

(** X20.  Testing one agent by name: a name that is not registered gives a
    400 response listing exactly the registered names; a registered agent
    that raises, or returns something that is not a map, turns the response
    into a 500 carrying that exception; otherwise the response is 200 with
    the agent's result and its status (or "unknown").  A request without a
    readable body, or whose body is not a map, gives a 500. *)
Theorem one_agent_tested
  (agents : list (string * Routes.agent)) (request_json : result value) :
  match request_json with
  | Raise e =>
      Routes.test_psychological_agents agents request_json
      = (Routes.TestError e, 500%nat)
  | Ok (VDict data) =>
      forall name,
        Py.get data "agent" (VStr "all") = VStr name ->
        name <> "all" ->
        let test_data := Py.get data "test_data" Routes.default_test_data in
        Routes.test_psychological_agents agents request_json
        = match Py.lookup agents name with
          | None => (Routes.AgentNotFound (map fst agents), 400%nat)
          | Some a =>
              match a test_data with
              | Raise e => (Routes.TestError e, 500%nat)
              | Ok (VDict r) =>
                  (Routes.OneTested name (VDict r)
                     (Py.get r "status" (VStr "unknown")), 200%nat)
              | Ok _ => (Routes.TestError AttributeError, 500%nat)
              end
          end
  | Ok _ =>
      Routes.test_psychological_agents agents request_json
      = (Routes.TestError AttributeError, 500%nat)
  end.
Proof.
destruct request_json as [data | e]; [| reflexivity].
destruct data as [| b | z | q | s | l | d]; try reflexivity.
intros name Hname Hnot test_data.
unfold Routes.test_psychological_agents.
cbn [rbind Py.get_attr]. rewrite Hname.
cbn [Routes.is_all Routes.registered rbind].
destruct (String.eqb_spec name "all") as [-> | _]; [congruence |].
destruct (Py.lookup agents name) as [a |]; [| reflexivity].
fold test_data.
destruct (a test_data) as [result | e]; [| reflexivity].
destruct result; reflexivity.
Qed.

Lemma one_agent_tested_witness :
  Routes.test_psychological_agents
    [("arqueologist", fun _ => Ok (VDict [("status", VStr "ok")]))]
    (Ok (VDict [("agent", VStr "visual_director")]))
  = (Routes.AgentNotFound ["arqueologist"], 400%nat).
Proof.
apply (one_agent_tested
         [("arqueologist", fun _ => Ok (VDict [("status", VStr "ok")]))]
         (Ok (VDict [("agent", VStr "visual_director")]))
         "visual_director" eq_refl).
discriminate.
Defined.
